(** * Documentation Hub: domain classification, topic extraction, URL construction

    A shallow embedding of the server module [index.ts] (and of its
    compiled form): [determineDomain], [extractTopics],
    [constructSpecificUrl] and the handler of the [fetch-documentation]
    tool, together with the fragment of the JavaScript runtime they rely
    on (strings, plain objects, regular expressions).

    Strings.  A JavaScript string is a sequence of UTF-16 code units.  The
    development represents the strings whose code units are all below 256
    (Basic Latin and Latin-1 Supplement) by [string]: one [ascii] per code
    unit, so that [String.length] is the [length] property.  On that range
    [toLowerCase], regular-expression case folding, [\s] and [\b] are the
    ones of ECMAScript. *)

From Stdlib Require Import String Ascii List Bool Arith PeanoNat Lia.
Import ListNotations.

Local Open Scope string_scope.
Local Open Scope nat_scope.
Local Open Scope list_scope.

(** ** JavaScript strings *)

Module JsString.

Definition code (c : ascii) : nat := nat_of_ascii c.

Definition between (lo hi n : nat) : bool := (lo <=? n) && (n <=? hi).

(** [String.prototype.toLowerCase] on one code unit: [A-Z] and the
    Latin-1 capitals U+00C0..U+00DE (the multiplication sign U+00D7
    apart) move up by 32, everything else is unchanged. *)
Definition lowerChar (c : ascii) : ascii :=
  let n := code c in
  if between 65 90 n then ascii_of_nat (n + 32)
  else if between 192 222 n && negb (n =? 215) then ascii_of_nat (n + 32)
  else c.

Fixpoint toLowerCase (s : string) : string :=
  match s with
  | EmptyString => EmptyString
  | String c s' => String (lowerChar c) (toLowerCase s')
  end.

(** [s.startsWith(p)] *)
Fixpoint startsWith (s p : string) : bool :=
  match p with
  | EmptyString => true
  | String b p' =>
      match s with
      | EmptyString => false
      | String a s' => Ascii.eqb a b && startsWith s' p'
      end
  end.

(** [s.includes(p)]: [p] occurs in [s] at some index. *)
Fixpoint includes (s p : string) : bool :=
  startsWith s p
  || match s with
     | EmptyString => false
     | String _ s' => includes s' p
     end.

(** [s.slice(0, n)] for [n <= s.length]. *)
Fixpoint take (n : nat) (s : string) : string :=
  match n, s with
  | S k, String c s' => String c (take k s')
  | _, _ => EmptyString
  end.

(** Truthiness of a string: only the empty string is falsy. *)
Definition truthy (s : string) : bool :=
  match s with EmptyString => false | String _ _ => true end.

End JsString.

(** ** Plain JavaScript objects

    An object literal is the list of its own enumerable string-keyed
    properties in insertion order, which is the order of [Object.entries]
    (no key of this program is an array index).  A property read that
    misses the own properties falls through to [Object.prototype]. *)

Module JsObject.

Definition object (V : Type) : Type := list (string * V).

Inductive property (V : Type) : Type :=
| Own (v : V)        (* an own property of the literal *)
| Inherited          (* a member of Object.prototype: a truthy value that
                        has no own enumerable property and no [handler] *)
| Missing.           (* undefined *)
Arguments Own {V} v.
Arguments Inherited {V}.
Arguments Missing {V}.

Definition objectPrototypeNames : list string :=
  [ "constructor"; "hasOwnProperty"; "isPrototypeOf";
    "propertyIsEnumerable"; "toLocaleString"; "toString"; "valueOf";
    "__proto__"; "__defineGetter__"; "__defineSetter__";
    "__lookupGetter__"; "__lookupSetter__" ].

Definition inPrototype (k : string) : bool :=
  existsb (String.eqb k) objectPrototypeNames.

Fixpoint own {V} (o : object V) (k : string) : option V :=
  match o with
  | [] => None
  | (k', v) :: o' => if String.eqb k' k then Some v else own o' k
  end.

(** [o[k]] *)
Definition get {V} (o : object V) (k : string) : property V :=
  match own o k with
  | Some v => Own v
  | None => if inPrototype k then Inherited else Missing
  end.

(** [o[k] = v]: an existing own property keeps its place, a new one is
    appended. *)
Fixpoint set {V} (o : object V) (k : string) (v : V) : object V :=
  match o with
  | [] => [(k, v)]
  | (k', v') :: o' =>
      if String.eqb k' k then (k', v) :: o' else (k', v') :: set o' k v
  end.

(** [Object.entries(o)] *)
Definition entries {V} (o : object V) : list (string * V) := o.

Definition keys {V} (o : object V) : list string := map fst o.

End JsObject.

(** [xs.push(x)] *)
Definition push {A} (xs : list A) (x : A) : list A := xs ++ [x].

(** ** determineDomain *)

Definition domainKeywords : JsObject.object (list string) :=
  [ ("react-docs",  ["react"; "component"; "jsx"; "hook"; "props"; "state"]);
    ("node-docs",   ["node"; "express"; "npm"; "package"; "module"; "require"]);
    ("python-docs", ["python"; "pip"; "django"; "flask"; "pandas"; "numpy"]) ].

(** [keywords.reduce((count, keyword) =>
       count + (queryLower.includes(keyword) ? 1 : 0), 0)] *)
Definition keywordScore (queryLower : string) (keywords : list string) : nat :=
  fold_left
    (fun count keyword =>
       count + (if JsString.includes queryLower keyword then 1 else 0))
    keywords 0.

(** The first loop: [scores[domain] = ...] for each entry. *)
Definition scoreTable (queryLower : string) : JsObject.object nat :=
  fold_left
    (fun scores '(domain, keywords) =>
       JsObject.set scores domain (keywordScore queryLower keywords))
    (JsObject.entries domainKeywords) [].

(** One round of the second loop, on the pair (bestDomain, highestScore). *)
Definition better (best : string * nat) (entry : string * nat) : string * nat :=
  let '(bestDomain, highestScore) := best in
  let '(domain, score) := entry in
  if highestScore <? score then (domain, score) else (bestDomain, highestScore).

Definition selectBest (scores : list (string * nat)) (init : string * nat)
  : string * nat :=
  fold_left better scores init.

Definition determineDomain (query : string) : string :=
  let queryLower := JsString.toLowerCase query in
  let scores := scoreTable queryLower in
  let '(bestDomain, highestScore) :=
    selectBest (JsObject.entries scores) ("general", 0) in
  if 0 <? highestScore then bestDomain else "general".

(** The fixed enumeration order of the scored domains. *)
Definition enumeration : list string := JsObject.keys domainKeywords.

(** The score of one domain on a query; a name that is not scored counts 0. *)
Definition domainScore (query domain : string) : nat :=
  match JsObject.own domainKeywords domain with
  | Some keywords => keywordScore (JsString.toLowerCase query) keywords
  | None => 0
  end.

(** ** Regular expressions

    The fragment of ECMAScript patterns that the program uses: literal
    characters, classes [[...]] and [[^...]], [\s], [\b], concatenation,
    alternation, capture groups, and the greedy quantifiers [*] and [+],
    which the program applies to single-character terms only.  Matching is
    the backtracking semantics of the standard: [matchR] lists the end
    positions of the matches that start at a given position, in the order
    in which backtracking tries them. *)

Module RegExp.

Inductive atom : Type :=
| Lit (c : ascii)                       (* a literal character *)
| Class (negated : bool) (cs : list ascii)  (* [...] or [^...] *)
| Space.                                (* \s *)

Inductive regex : Type :=
| Atom (a : atom)
| WordBoundary                          (* \b *)
| Seq (r1 r2 : regex)
| Alt (r1 r2 : regex)
| Star (a : atom)                       (* a* *)
| Plus (a : atom)                       (* a+ *)
| Group (r : regex).                    (* ( r ) *)

Record t : Type := mk { pattern : regex; ignoreCase : bool }.

(** Canonicalize of the standard without the [u] flag: the upper-case
    form, when that is a single code unit.  U+00B5 and U+00FF have
    upper-case forms above U+00FF that no other Latin-1 code unit shares,
    and U+00DF has none of one code unit: the three stay as they are. *)
Definition canonicalize (ignoreCase : bool) (c : ascii) : ascii :=
  let n := JsString.code c in
  if negb ignoreCase then c
  else if JsString.between 97 122 n then ascii_of_nat (n - 32)
  else if JsString.between 224 254 n && negb (n =? 247)
       then ascii_of_nat (n - 32)
  else c.

(** WhiteSpace and LineTerminator code units below 256. *)
Definition isSpace (c : ascii) : bool :=
  let n := JsString.code c in
  JsString.between 9 13 n || (n =? 32) || (n =? 160).

(** The word characters of [\b]: [A-Za-z0-9_]. *)
Definition isWordChar (c : ascii) : bool :=
  let n := JsString.code c in
  JsString.between 97 122 n || JsString.between 65 90 n
  || JsString.between 48 57 n || (n =? 95).

Definition atomMatches (ic : bool) (a : atom) (c : ascii) : bool :=
  match a with
  | Lit l => Ascii.eqb (canonicalize ic c) (canonicalize ic l)
  | Class negated cs =>
      xorb negated
        (existsb (fun l => Ascii.eqb (canonicalize ic c) (canonicalize ic l)) cs)
  | Space => isSpace c
  end.

(** A position in the input: the character before it, if any, and the
    input that remains. *)
Definition position : Type := option ascii * string.

Definition wordBefore (p : position) : bool :=
  match fst p with Some c => isWordChar c | None => false end.

Definition wordAfter (p : position) : bool :=
  match snd p with String c _ => isWordChar c | EmptyString => false end.

Definition atBoundary (p : position) : bool :=
  xorb (wordBefore p) (wordAfter p).

(** Greedy repetition of one atom: the longest run first, the empty run
    last. *)
Fixpoint many (ic : bool) (a : atom) (prev : option ascii) (s : string)
  : list position :=
  match s with
  | String c s' =>
      if atomMatches ic a c
      then many ic a (Some c) s' ++ [(prev, s)]
      else [(prev, s)]
  | EmptyString => [(prev, s)]
  end.

Definition one (ic : bool) (a : atom) (p : position) : list position :=
  match snd p with
  | String c s' => if atomMatches ic a c then [(Some c, s')] else []
  | EmptyString => []
  end.

Fixpoint matchR (ic : bool) (r : regex) (p : position) : list position :=
  match r with
  | Atom a => one ic a p
  | WordBoundary => if atBoundary p then [p] else []
  | Seq r1 r2 => flat_map (matchR ic r2) (matchR ic r1 p)
  | Alt r1 r2 => matchR ic r1 p ++ matchR ic r2 p
  | Star a => many ic a (fst p) (snd p)
  | Plus a => flat_map (fun q => many ic a (fst q) (snd q)) (one ic a p)
  | Group r' => matchR ic r' p
  end.

(** The match the engine reports at a position: the first in
    backtracking order. *)
Definition exec (re : t) (p : position) : option position :=
  match matchR (ignoreCase re) (pattern re) p with
  | q :: _ => Some q
  | [] => None
  end.

(** [re.test(s)] for a pattern without the [g] flag: is there a match
    starting at some index, the end of the input included. *)
Fixpoint search (re : t) (prev : option ascii) (s : string) : bool :=
  match exec re (prev, s) with
  | Some _ => true
  | None =>
      match s with
      | String c s' => search re (Some c) s'
      | EmptyString => false
      end
  end.

Definition test (re : t) (s : string) : bool := search re None s.

(** The successive matches of a pattern with the [g] flag, scanning from
    the left; [skip] counts the characters of the last match that are
    still to be stepped over.  After an empty match the scan moves on by
    one character. *)
Fixpoint scan (re : t) (skip : nat) (prev : option ascii) (s : string)
  : list string :=
  match skip with
  | S k =>
      match s with
      | String c s' => scan re k (Some c) s'
      | EmptyString => []
      end
  | 0 =>
      match exec re (prev, s) with
      | Some (_, rest) =>
          let n := String.length s - String.length rest in
          JsString.take n s
            :: match s with
               | String c s' => scan re (n - 1) (Some c) s'
               | EmptyString => []
               end
      | None =>
          match s with
          | String c s' => scan re 0 (Some c) s'
          | EmptyString => []
          end
      end
  end.

(** [s.match(re)] for [re] with the [g] flag; [null] is the empty list. *)
Definition matchAll (re : t) (s : string) : list string := scan re 0 None s.

(** [s.replace(re, '')] for [re] with the [g] flag: the characters of
    every match are dropped. *)
Fixpoint erase (re : t) (skip : nat) (prev : option ascii) (s : string)
  : string :=
  match s with
  | EmptyString => EmptyString
  | String c s' =>
      match skip with
      | S k => erase re k (Some c) s'
      | 0 =>
          match exec re (prev, s) with
          | Some (_, rest) =>
              match String.length s - String.length rest with
              | 0 => String c (erase re 0 (Some c) s')
              | S k => erase re k (Some c) s'
              end
          | None => String c (erase re 0 (Some c) s')
          end
      end
  end.

Definition removeAll (re : t) (s : string) : string := erase re 0 None s.

(** The pattern that matches the characters of [w] in turn (the empty
    pattern for the empty word). *)
Fixpoint word (w : string) : regex :=
  match w with
  | EmptyString => Star (Class false [])
  | String c EmptyString => Atom (Lit c)
  | String c w' => Seq (Atom (Lit c)) (word w')
  end.

(** [\bw\b] *)
Definition whole (w : string) : regex :=
  Seq WordBoundary (Seq (word w) WordBoundary).

Fixpoint anyOf (r : regex) (rs : list regex) : regex :=
  match rs with
  | [] => r
  | r' :: rs' => Alt r (anyOf r' rs')
  end.

End RegExp.

Import RegExp.

Infix "===" := String.eqb (at level 70, no associativity).

(** The two quote characters. *)
Definition dquote : ascii := "034"%char.
Definition squote : ascii := "'"%char.

(** ** extractTopics *)

(** [/p/i] *)
Definition ci (r : regex) : RegExp.t := RegExp.mk r true.

(** [a\s*b] *)
Definition spaced (a b : string) : regex :=
  Seq (word a) (Seq (Star Space) (word b)).

Definition topicPatterns : JsObject.object (JsObject.object RegExp.t) :=
  [ ("react-docs",
      [ ("useState",    ci (spaced "use" "state"));
        ("useEffect",   ci (spaced "use" "effect"));
        ("useContext",  ci (spaced "use" "context"));
        ("useReducer",  ci (spaced "use" "reducer"));
        ("useCallback", ci (spaced "use" "callback"));
        ("useMemo",     ci (spaced "use" "memo"));
        ("useRef",      ci (spaced "use" "ref"));
        ("components",  ci (word "component"));
        ("props",       ci (word "props"));
        ("state",       ci (Seq (word "state") WordBoundary));
        ("jsx",         ci (word "jsx"));
        ("rendering",   ci (word "render"));
        ("events",      ci (word "event")) ]);
    ("node-docs",
      [ ("fs",      ci (Alt (whole "fs") (spaced "file" "system")));
        ("http",    ci (anyOf (whole "http") [whole "server"]));
        ("path",    ci (whole "path"));
        ("buffer",  ci (whole "buffer"));
        ("stream",  ci (whole "stream"));
        ("events",  ci (whole "events"));
        ("modules", ci (anyOf (whole "module") [whole "require"; whole "import"]));
        ("npm",     ci (anyOf (whole "npm") [whole "package"]));
        ("express", ci (whole "express"));
        ("process", ci (whole "process")) ]);
    ("python-docs",
      [ ("list",     ci (anyOf (whole "list") [whole "lists"]));
        ("dict",     ci (anyOf (whole "dict")
                           [whole "dictionary"; whole "dictionaries"]));
        ("tuple",    ci (anyOf (whole "tuple") [whole "tuples"]));
        ("set",      ci (anyOf (whole "set") [whole "sets"]));
        ("string",   ci (anyOf (whole "string") [whole "str"]));
        ("file",     ci (anyOf (whole "file")
                           [whole "open"; whole "read"; whole "write"]));
        ("class",    ci (anyOf (whole "class")
                           [whole "object"; whole "inheritance"]));
        ("function", ci (anyOf (whole "function") [whole "def"]));
        ("module",   ci (anyOf (whole "module") [whole "import"]));
        ("pandas",   ci (anyOf (whole "pandas") [whole "pd"; whole "dataframe"]));
        ("numpy",    ci (anyOf (whole "numpy") [whole "np"; whole "array"]));
        ("django",   ci (whole "django"));
        ("flask",    ci (whole "flask")) ]) ].

(** [q([^q]+)q] for a quote character [q]. *)
Definition quotedBy (q : ascii) : regex :=
  Seq (Atom (Lit q)) (Seq (Group (Plus (Class true [q]))) (Atom (Lit q))).

(** The pattern of the quoted terms, with the [g] flag and without [i]:
    a double-quoted run, or else a single-quoted run. *)
Definition quotedPattern : RegExp.t :=
  RegExp.mk (Alt (quotedBy dquote) (quotedBy squote)) false.

(** The pattern of [term.replace]: either quote character, [g] flag. *)
Definition quotePattern : RegExp.t :=
  RegExp.mk (Atom (Class false [squote; dquote])) false.

(** The entries that the pattern loop walks: those of [topicPatterns[domain]]
    when that is truthy.  An inherited member of [Object.prototype] is
    truthy and has no entries. *)
Definition patternEntries (domain : string) : list (string * RegExp.t) :=
  match JsObject.get topicPatterns domain with
  | JsObject.Own patterns => JsObject.entries patterns
  | JsObject.Inherited => []
  | JsObject.Missing => []
  end.

(** The quote removal of [term.replace]: every quote character of either
    kind is dropped from the match. *)
Definition cleanTerm (term : string) : string :=
  RegExp.removeAll quotePattern term.

(** [query.match(...)]; [null] is the empty list. *)
Definition quotedTerms (query : string) : list string :=
  RegExp.matchAll quotedPattern query.

Definition extractTopics (query domain : string) : list string :=
  let queryLower := JsString.toLowerCase query in
  let extractedTopics : list string := [] in
  let extractedTopics :=
    fold_left
      (fun topics '(topic, pattern) =>
         if RegExp.test pattern queryLower then push topics topic else topics)
      (patternEntries domain) extractedTopics in
  fold_left
    (fun topics term =>
       let cleanTerm := cleanTerm term in
       if 2 <? String.length cleanTerm then push topics cleanTerm else topics)
    (quotedTerms query) extractedTopics.

(** ** constructSpecificUrl *)

Definition reactHooks : list string :=
  [ "useState"; "useEffect"; "useContext"; "useReducer"; "useCallback";
    "useMemo"; "useRef" ].

(** [xs.includes(x)] on an array of strings. *)
Definition arrayIncludes (xs : list string) (x : string) : bool :=
  existsb (fun y => y === x) xs.

Definition reactUrl (mainTopic : string) : option string :=
  if arrayIncludes reactHooks mainTopic
  then Some ("https://react.dev/reference/react/" ++ mainTopic)%string
  else if mainTopic === "components"
  then Some "https://react.dev/learn/your-first-component"
  else if mainTopic === "props"
  then Some "https://react.dev/learn/passing-props-to-a-component"
  else if mainTopic === "state"
  then Some "https://react.dev/learn/state-a-components-memory"
  else if mainTopic === "jsx"
  then Some "https://react.dev/learn/writing-markup-with-jsx"
  else if mainTopic === "events"
  then Some "https://react.dev/learn/responding-to-events"
  else if mainTopic === "rendering"
  then Some "https://react.dev/learn/render-and-commit"
  else None.

Definition nodeUrl (mainTopic : string) : option string :=
  if mainTopic === "fs" then Some "https://nodejs.org/api/fs.html"
  else if mainTopic === "http" then Some "https://nodejs.org/api/http.html"
  else if mainTopic === "path" then Some "https://nodejs.org/api/path.html"
  else if mainTopic === "buffer" then Some "https://nodejs.org/api/buffer.html"
  else if mainTopic === "stream" then Some "https://nodejs.org/api/stream.html"
  else if mainTopic === "events" then Some "https://nodejs.org/api/events.html"
  else if mainTopic === "modules" then Some "https://nodejs.org/api/modules.html"
  else if mainTopic === "process" then Some "https://nodejs.org/api/process.html"
  else if mainTopic === "npm" then Some "https://docs.npmjs.com/"
  else if mainTopic === "express" then Some "https://expressjs.com/en/api.html"
  else None.

Definition pythonUrl (mainTopic : string) : option string :=
  if arrayIncludes ["list"; "dict"; "tuple"; "set"; "string"] mainTopic
  then Some ("https://docs.python.org/3/library/stdtypes.html#"
               ++ mainTopic ++ "s")%string
  else if mainTopic === "file"
  then Some "https://docs.python.org/3/tutorial/inputoutput.html#reading-and-writing-files"
  else if mainTopic === "class"
  then Some "https://docs.python.org/3/tutorial/classes.html"
  else if mainTopic === "function"
  then Some "https://docs.python.org/3/tutorial/controlflow.html#defining-functions"
  else if mainTopic === "module"
  then Some "https://docs.python.org/3/tutorial/modules.html"
  else if mainTopic === "pandas"
  then Some "https://pandas.pydata.org/docs/user_guide/index.html"
  else if mainTopic === "numpy"
  then Some "https://numpy.org/doc/stable/user/index.html"
  else if mainTopic === "django"
  then Some "https://docs.djangoproject.com/en/stable/"
  else if mainTopic === "flask"
  then Some "https://flask.palletsprojects.com/en/latest/"
  else None.

(** [None] is [null]. *)
Definition constructSpecificUrl (domain : string) (topics : list string)
  : option string :=
  match topics with
  | [] => None
  | mainTopic :: _ =>
      if domain === "react-docs" then reactUrl mainTopic
      else if domain === "node-docs" then nodeUrl mainTopic
      else if domain === "python-docs" then pythonUrl mainTopic
      else None
  end.

(** ** The server: resources and the fetch-documentation tool *)

(** What a resource handler returns. *)
Record resourceResult : Type := mkResult {
  content : string;
  source : string;
  timestamp : string
}.

(** What is thrown inside the [try] block of the tool. *)
Inductive exception : Type :=
| Error (message : string)     (* new Error(message) *)
| NotAFunction.                (* the call of an undefined [handler] *)

(** [String(error)]; the text of the TypeError is the engine's. *)
Definition stringOfException (e : exception) : string :=
  match e with
  | Error message => ("Error: " ++ message)%string
  | NotAFunction => "TypeError: resource.handler is not a function"
  end.

(** The two shapes of object that the tool returns. *)
Inductive response : Type :=
| Fetched (domain : string) (topics : list string)
          (specificUrl : option string) (content source : string)
| Failed (domain : string) (topics : list string)
         (content error : string).

Definition responseDomain (r : response) : string :=
  match r with
  | Fetched domain _ _ _ _ => domain
  | Failed domain _ _ _ => domain
  end.

Definition responseTopics (r : response) : list string :=
  match r with
  | Fetched _ topics _ _ _ => topics
  | Failed _ topics _ _ => topics
  end.

(** The [error] property; [None] when the object has none. *)
Definition responseError (r : response) : option string :=
  match r with
  | Fetched _ _ _ _ _ => None
  | Failed _ _ _ error => Some error
  end.

(** [a || b] where [a] is a string, [null] or [undefined]. *)
Definition orElse (a : option string) (b : string) : string :=
  match a with
  | Some s => if JsString.truthy s then s else b
  | None => b
  end.

(** [specifiedDomain || determineDomain(query)]: the domain of the
    caller when it is a non-empty string, the classifier's otherwise. *)
Definition resolveDomain (query : string) (specifiedDomain : option string)
  : string :=
  match specifiedDomain with
  | Some d => if JsString.truthy d then d else determineDomain query
  | None => determineDomain query
  end.

Section Server.

(** The network: the body of the page at a URL, or [None] when the
    request fails or the status is not ok. *)
Variable fetch : string -> option string.

(** [new Date().toISOString()] *)
Variable now : string.

Definition fetchDocumentation (url : string) : string :=
  match fetch url with
  | Some text => text
  | None => "Unable to fetch documentation content."
  end.

(** The handler of the three resources that have a base URL. *)
Definition docsHandler (baseUrl : string) (specificUrl : option string)
  : resourceResult :=
  let targetUrl := orElse specificUrl baseUrl in
  let content := fetchDocumentation targetUrl in
  mkResult content targetUrl now.

Definition generalHandler (url : option string) : resourceResult :=
  match url with
  | Some u =>
      if JsString.truthy u
      then mkResult (fetchDocumentation u) u now
      else mkResult
             "Please provide a specific URL for general documentation queries."
             "none" now
  | None =>
      mkResult
        "Please provide a specific URL for general documentation queries."
        "none" now
  end.

Definition resources : JsObject.object (option string -> resourceResult) :=
  [ ("react-docs",  docsHandler "https://react.dev/reference/react");
    ("node-docs",   docsHandler "https://nodejs.org/en/docs");
    ("python-docs", docsHandler "https://docs.python.org/3/");
    ("general",     generalHandler) ].

(** The [try] block: [inl] is a throw. *)
Definition tryFetch (domain : string) (topics : list string)
    (specificUrl : option string) : exception + response :=
  match JsObject.get resources domain with
  | JsObject.Missing => inl (Error ("Unknown domain: " ++ domain)%string)
  | JsObject.Inherited => inl NotAFunction
  | JsObject.Own handler =>
      let result := handler specificUrl in
      inr (Fetched domain
             (if 0 <? List.length topics then topics else ["general"])
             specificUrl (content result) (source result))
  end.

(** The handler of the [fetch-documentation] tool; [specifiedDomain] is
    [None] when the caller passes no domain. *)
Definition fetchDocumentationTool (query : string)
    (specifiedDomain : option string) : response :=
  let domain := resolveDomain query specifiedDomain in
  let topics := extractTopics query domain in
  let specificUrl := constructSpecificUrl domain topics in
  match tryFetch domain topics specificUrl with
  | inr r => r
  | inl error =>
      Failed domain topics
        "Error fetching documentation for this domain."
        (stringOfException error)
  end.

End Server.

(** ** Notions used to state the properties *)

(** The domains that have a resource. *)
Definition configuredDomains : list string :=
  [ "react-docs"; "node-docs"; "python-docs"; "general" ].

(** The labels of the patterns of a domain that match the lowercased
    query, in declaration order. *)
Definition matchedLabels (query domain : string) : list string :=
  map fst
    (filter (fun entry => RegExp.test (snd entry) (JsString.toLowerCase query))
       (patternEntries domain)).

(** The quoted matches of the query after quote removal, those of more
    than two characters, in the order of the matches. *)
Definition quotedTopics (query : string) : list string :=
  filter (fun term => 2 <? String.length term)
    (map cleanTerm (quotedTerms query)).

(** [s.slice(n)] *)
Fixpoint drop (n : nat) (s : string) : string :=
  match n, s with
  | S k, String _ s' => drop k s'
  | _, _ => s
  end.

(** The strings [ms] occur in [s] one after the other, from left to right
    and without overlap. *)
Fixpoint inOrder (ms : list string) (s : string) : Prop :=
  match ms with
  | [] => True
  | m :: ms' =>
      exists before after,
        s = (before ++ m ++ after)%string /\ inOrder ms' after
  end.

Definition isQuote (c : ascii) : bool :=
  Ascii.eqb c squote || Ascii.eqb c dquote.

(** The number of quote characters, of either kind, in a string. *)
Fixpoint countQuotes (s : string) : nat :=
  match s with
  | EmptyString => 0
  | String c s' => (if isQuote c then 1 else 0) + countQuotes s'
  end.

(** A string without its quote characters, of either kind; the other
    characters stay, in their order. *)
Fixpoint withoutQuotes (s : string) : string :=
  match s with
  | EmptyString => EmptyString
  | String c s' =>
      if isQuote c then withoutQuotes s' else String c (withoutQuotes s')
  end.

(** The character [q] does not occur in [s]. *)
Fixpoint absent (q : ascii) (s : string) : Prop :=
  match s with
  | EmptyString => True
  | String c s' => c <> q /\ absent q s'
  end.

(** Following the specification's words, not the code: a quoted match
    with exactly its leading and its trailing character removed. *)
Definition stripSurrounding (term : string) : string :=
  match term with
  | EmptyString => EmptyString
  | String _ rest => JsString.take (String.length rest - 1) rest
  end.

(** A one-character string. *)
Definition str1 (c : ascii) : string := String c EmptyString.

(** [s] between two double quotes, and between two apostrophes. *)
Definition dquoted (s : string) : string :=
  (str1 dquote ++ s ++ str1 dquote)%string.
Definition squoted (s : string) : string :=
  (str1 squote ++ s ++ str1 squote)%string.

(** ** The other tools, the first handler and the test script *)

(** What the [determine-domain] tool returns. *)
Record classification : Type := mkClassification {
  classifiedDomain : string;
  confidence : string
}.

(** The handler of the [determine-domain] tool. *)
Definition determineDomainTool (query : string) : classification :=
  let domain := determineDomain query in
  mkClassification domain
    (if negb (domain === "general") then "high" else "low").

(** What the [extract-topics] tool returns. *)
Record extraction : Type := mkExtraction {
  extractedTopics : list string;
  topicCount : nat
}.

(** The handler of the [extract-topics] tool. *)
Definition extractTopicsTool (query domain : string) : extraction :=
  let topics := extractTopics query domain in
  mkExtraction topics (List.length topics).

(** The two shapes of object that the first [fetch-documentation] handler
    returns: it has no topics and no specific URL. *)
Inductive responseV1 : Type :=
| FetchedV1 (domain content source : string)
| FailedV1 (domain content error : string).

(** The [try] block of the first handler: the resource is called without
    a URL. *)
Definition tryFetchV1 (fetch : string -> option string) (now domain : string)
  : exception + responseV1 :=
  match JsObject.get (resources fetch now) domain with
  | JsObject.Missing => inl (Error ("Unknown domain: " ++ domain)%string)
  | JsObject.Inherited => inl NotAFunction
  | JsObject.Own handler =>
      let result := handler None in
      inr (FetchedV1 domain (content result) (source result))
  end.

(** The first [fetch-documentation] handler, the one of [index.ts]. *)
Definition fetchDocumentationToolV1 (fetch : string -> option string)
    (now query : string) (specifiedDomain : option string) : responseV1 :=
  let domain := resolveDomain query specifiedDomain in
  match tryFetchV1 fetch now domain with
  | inr r => r
  | inl error =>
      FailedV1 domain "Error fetching documentation for this domain."
        (stringOfException error)
  end.

(** [xs.join(sep)] on an array of strings. *)
Fixpoint join (sep : string) (xs : list string) : string :=
  match xs with
  | [] => EmptyString
  | [x] => x
  | x :: xs' => (x ++ sep ++ join sep xs')%string
  end.

Definition newline : ascii := "010"%char.

(** [testQuery] of the test script: the lines it logs, in order. *)
Definition testQuery (query : string) : list string :=
  let domain := determineDomain query in
  let topics := extractTopics query domain in
  let specificUrl := constructSpecificUrl domain topics in
  let topicsText :=
    if 0 <? List.length topics then join ", " topics else "None detected" in
  let urlText :=
    orElse specificUrl "No specific URL constructed, would use base URL" in
  [ (str1 newline ++ "-------------------------------------")%string;
    ("Query: " ++ dquoted query)%string;
    ("Domain: " ++ domain)%string;
    ("Topics: " ++ topicsText)%string;
    ("Specific URL: " ++ urlText)%string;
    "-------------------------------------" ].

(** The labels of the topic patterns of a domain, in declaration order. *)
Definition labelsOf (domain : string) : list string :=
  map fst (patternEntries domain).

(** The [baseUrl] constant of each documentation resource handler. *)
Definition baseUrls : JsObject.object string :=
  [ ("react-docs",  "https://react.dev/reference/react");
    ("node-docs",   "https://nodejs.org/en/docs");
    ("python-docs", "https://docs.python.org/3/") ].

(** A string that [toLowerCase] leaves as it is. *)
Definition lowered (s : string) : Prop := JsString.toLowerCase s = s.

(** The last character of [s], or [prev] when [s] is empty. *)
Fixpoint lastOf (prev : option ascii) (s : string) : option ascii :=
  match s with
  | EmptyString => prev
  | String c s' => lastOf (Some c) s'
  end.

Definition endsInWordChar (s : string) : bool :=
  match lastOf None s with Some c => isWordChar c | None => false end.

Definition startsWithWordChar (s : string) : bool :=
  match s with String c _ => isWordChar c | EmptyString => false end.

Fixpoint allChars (p : ascii -> bool) (s : string) : bool :=
  match s with
  | EmptyString => true
  | String c s' => p c && allChars p s'
  end.

(** [w] occurs in [s] as a whole word: no word character stands right
    before or right after the occurrence. *)
Definition occursAsWord (w s : string) : Prop :=
  exists before after,
    s = (before ++ w ++ after)%string
    /\ endsInWordChar before = false
    /\ startsWithWordChar after = false.


(** Does a match of the pattern start at the position. *)
Definition matchesAt (re : RegExp.t) (p : position) : bool :=
  match exec re p with Some _ => true | None => false end.

(** The topics field of the page response: the topics, or the one entry
    general when there are none. *)
Definition topicsOrGeneral (topics : list string) : list string :=
  if 0 <? List.length topics then topics else ["general"].

(** ** The test queries of the repository *)

Example scenario_components :
  determineDomain "What are React components and how do they work?"
  = "react-docs"
  /\ extractTopics "What are React components and how do they work?"
       "react-docs" = ["components"]
  /\ constructSpecificUrl "react-docs" ["components"]
     = Some "https://react.dev/learn/your-first-component".
Proof. repeat split; vm_compute; reflexivity. Qed.

Example scenario_lists :
  determineDomain "How to work with lists in Python" = "python-docs"
  /\ extractTopics "How to work with lists in Python" "python-docs" = ["list"]
  /\ constructSpecificUrl "python-docs" ["list"]
     = Some "https://docs.python.org/3/library/stdtypes.html#lists".
Proof. repeat split; vm_compute; reflexivity. Qed.

Example scenario_file_handling :
  determineDomain "Best practices for file handling" = "general"
  /\ extractTopics "Best practices for file handling" "general" = []
  /\ constructSpecificUrl "general" [] = None.
Proof. repeat split; vm_compute; reflexivity. Qed.

Example scenario_http_server :
  determineDomain "Creating an HTTP server in Node" = "node-docs"
  /\ extractTopics "Creating an HTTP server in Node" "node-docs" = ["http"]
  /\ constructSpecificUrl "node-docs" ["http"]
     = Some "https://nodejs.org/api/http.html".
Proof. repeat split; vm_compute; reflexivity. Qed.

(** A member of Object.prototype used as a domain: no pattern entries, and
    the call of its missing handler is what the tool reports. *)
Example scenario_inherited_name :
  extractTopics "use state" "toString" = []
  /\ fetchDocumentationTool (fun _ => None) "2024-01-01T00:00:00.000Z"
       "use state" (Some "toString")
     = Failed "toString" []
         "Error fetching documentation for this domain."
         "TypeError: resource.handler is not a function".
Proof. repeat split; vm_compute; reflexivity. Qed.

(** ** The selection loop of determineDomain *)

Lemma better_fst (best entry : string * nat) :
  fst (better best entry) = fst best \/ fst (better best entry) = fst entry.
Proof.
  destruct best as [b h], entry as [d s]; simpl.
  destruct (h <? s); simpl; auto.
Qed.

Lemma selectBest_fst (scores : list (string * nat)) :
  forall init,
    fst (selectBest scores init) = fst init
    \/ In (fst (selectBest scores init)) (map fst scores).
Proof.
  induction scores as [|entry scores IH]; intros init; simpl.
  - now left.
  - destruct (IH (better init entry)) as [H | H].
    + unfold selectBest in *; simpl. rewrite H.
      destruct (better_fst init entry) as [E | E]; rewrite E; auto.
    + right; right. exact H.
Qed.

(** Entries that do not exceed the running maximum leave it alone. *)
Lemma selectBest_keep (scores : list (string * nat)) :
  forall b h,
    (forall e, In e scores -> snd e <= h) ->
    selectBest scores (b, h) = (b, h).
Proof.
  induction scores as [|[d s] scores IH]; intros b h Hle; simpl.
  - reflexivity.
  - assert (Hs : s <= h) by (apply (Hle (d, s)); now left).
    unfold selectBest; simpl.
    destruct (Nat.ltb_spec h s) as [Hlt | _]; [lia |].
    apply IH. intros e He. apply Hle. now right.
Qed.


(** The score object, entry by entry. *)
Lemma scoreTable_enumeration (query : string) :
  scoreTable (JsString.toLowerCase query)
  = map (fun d => (d, domainScore query d)) enumeration.
Proof. reflexivity. Qed.

Lemma keywordScore_none (queryLower : string) (keywords : list string) :
  (forall keyword, In keyword keywords ->
     JsString.includes queryLower keyword = false) ->
  keywordScore queryLower keywords = 0.
Proof.
  intros H. unfold keywordScore.
  assert (G : forall n,
             fold_left
               (fun count keyword =>
                  count + (if JsString.includes queryLower keyword
                           then 1 else 0)) keywords n = n).
  { induction keywords as [|k ks IH]; intros n; simpl.
    - reflexivity.
    - rewrite (H k) by now left.
      rewrite Nat.add_0_r. apply IH. intros k' Hk'. apply H. now right. }
  apply G.
Qed.

Lemma determineDomain_selectBest (query : string) :
  determineDomain query
  = let '(bestDomain, highestScore) :=
      selectBest (map (fun d => (d, domainScore query d)) enumeration)
        ("general", 0) in
    if 0 <? highestScore then bestDomain else "general".
Proof.
  unfold determineDomain, JsObject.entries.
  now rewrite scoreTable_enumeration.
Qed.

Lemma domainScore_none (query : string) :
  (forall domain keywords keyword,
     In (domain, keywords) domainKeywords ->
     In keyword keywords ->
     JsString.includes (JsString.toLowerCase query) keyword = false) ->
  forall d, domainScore query d = 0.
Proof.
  intros H d. unfold domainScore.
  destruct (JsObject.own domainKeywords d) as [keywords|] eqn:E; [| reflexivity].
  apply keywordScore_none. intros keyword Hk.
  assert (Hin : exists domain, In (domain, keywords) domainKeywords).
  { revert E. generalize domainKeywords as o.
    induction o as [|[k v] o IH]; simpl; [discriminate |].
    destruct (String.eqb k d).
    - intros [= ->]. exists k. now left.
    - intros E. destruct (IH E) as [domain Hd]. exists domain. now right. }
  destruct Hin as [domain Hd]. exact (H domain keywords keyword Hd Hk).
Qed.

(** ** Properties of determineDomain *)




(** C5: [determineDomain] returns, on every query, one of react-docs,
    node-docs, python-docs and general; and when the lowercased query
    contains no keyword of any domain, it returns general. *)
Theorem determineDomain_total (query : string) :
  In (determineDomain query) configuredDomains
  /\ ((forall domain keywords keyword,
          In (domain, keywords) domainKeywords ->
          In keyword keywords ->
          JsString.includes (JsString.toLowerCase query) keyword = false) ->
      determineDomain query = "general").
Proof.
  split.
  - rewrite determineDomain_selectBest.
    pose proof (selectBest_fst
                  (map (fun d => (d, domainScore query d)) enumeration)
                  ("general", 0)) as H.
    destruct (selectBest _ _) as [b h]. simpl fst in H.
    rewrite map_map in H. simpl in H.
    destruct (0 <? h); simpl; intuition auto.
  - intros Hnone. rewrite determineDomain_selectBest.
    rewrite selectBest_keep; [reflexivity |].
    intros e He. apply in_map_iff in He as [d [<- _]]. simpl.
    now rewrite domainScore_none.
Qed.

Lemma determineDomain_total_witness :
  determineDomain "Best practices for file handling" = "general".
Proof.
  apply (proj2 (determineDomain_total "Best practices for file handling")).
  intros domain keywords keyword Hd Hk.
  simpl in Hd.
  destruct Hd as [Hd | [Hd | [Hd | []]]]; inversion Hd; subst; clear Hd;
    simpl in Hk;
    repeat (destruct Hk as [Hk | Hk]; [subst; vm_compute; reflexivity |]);
    destruct Hk.
Defined.

(** ** Properties of constructSpecificUrl *)

(** C6: [constructSpecificUrl] returns null on an empty topic list, for
    every domain; and for every domain other than react-docs, node-docs and
    python-docs it returns null whatever the topic list. *)
Theorem constructSpecificUrl_null :
  (forall domain, constructSpecificUrl domain [] = None)
  /\ (forall domain topics,
         domain <> "react-docs" ->
         domain <> "node-docs" ->
         domain <> "python-docs" ->
         constructSpecificUrl domain topics = None).
Proof.
  split.
  - reflexivity.
  - intros domain topics Hr Hn Hp.
    unfold constructSpecificUrl.
    destruct topics as [|mainTopic rest]; [reflexivity |].
    apply String.eqb_neq in Hr, Hn, Hp.
    now rewrite Hr, Hn, Hp.
Qed.

Lemma constructSpecificUrl_null_witness :
  constructSpecificUrl "general" ["useState"; "list"] = None.
Proof.
  apply (proj2 constructSpecificUrl_null "general" ["useState"; "list"]);
    discriminate.
Defined.

(** C7: [constructSpecificUrl] reads the first topic only.  On two
    non-empty topic lists with the same first element it returns the same
    result, for every domain; so when the first topic matches no rule the
    result is null whatever topics follow. *)
Theorem constructSpecificUrl_first_only :
  (forall domain topics1 topics2,
      topics1 <> [] ->
      topics2 <> [] ->
      hd_error topics1 = hd_error topics2 ->
      constructSpecificUrl domain topics1 = constructSpecificUrl domain topics2)
  /\ (forall domain mainTopic later,
         constructSpecificUrl domain [mainTopic] = None ->
         constructSpecificUrl domain (mainTopic :: later) = None).
Proof.
  split.
  - intros domain [|t1 l1] [|t2 l2] H1 H2 Hhd; try contradiction.
    simpl in Hhd. injection Hhd as ->. reflexivity.
  - intros domain mainTopic later H. exact H.
Qed.

Lemma constructSpecificUrl_first_only_witness :
  constructSpecificUrl "react-docs" ["hooks"; "useState"]
  = constructSpecificUrl "react-docs" ["hooks"]
  /\ constructSpecificUrl "react-docs" ["hooks"; "useState"] = None.
Proof.
  split.
  - apply (proj1 constructSpecificUrl_first_only "react-docs"
             ["hooks"; "useState"] ["hooks"]);
      [discriminate | discriminate | reflexivity].
  - apply (proj2 constructSpecificUrl_first_only "react-docs" "hooks"
             ["useState"]).
    vm_compute. reflexivity.
Defined.

(** ** The useState scenario *)

(** C1 (as amended): on the query [How do I use useState hook in React?]
    [determineDomain] returns react-docs; the extracted topics are exactly
    useState followed by state (in the lowercased query the word usestate
    is followed by a space, so the word boundary that the state pattern
    asks for after state is there); and [constructSpecificUrl] on that list
    returns the useState reference page. *)
Theorem useState_scenario :
  determineDomain "How do I use useState hook in React?" = "react-docs"
  /\ extractTopics "How do I use useState hook in React?" "react-docs"
     = ["useState"; "state"]
  /\ constructSpecificUrl "react-docs"
       (extractTopics "How do I use useState hook in React?" "react-docs")
     = Some "https://react.dev/reference/react/useState".
Proof. repeat split; vm_compute; reflexivity. Qed.

(** C1 (as stated) fails: the label state is among the topics extracted
    from the query, and the state pattern does match the lowercased
    query. *)
Lemma useState_scenario_counterexample :
  In "state"
    (extractTopics "How do I use useState hook in React?"
       (determineDomain "How do I use useState hook in React?"))
  /\ RegExp.test (ci (Seq (word "state") WordBoundary))
       (JsString.toLowerCase "How do I use useState hook in React?") = true.
Proof. split; vm_compute; auto. Qed.

(** ** Strings: concatenation, prefixes and suffixes *)

Lemma sapp_nil_r (s : string) : (s ++ EmptyString)%string = s.
Proof. induction s as [|c s IH]; simpl; [reflexivity | now rewrite IH]. Qed.

Lemma sapp_assoc (a b c : string) :
  ((a ++ b) ++ c)%string = (a ++ b ++ c)%string.
Proof. induction a as [|x a IH]; simpl; [reflexivity | now rewrite IH]. Qed.

Lemma slength_app (a b : string) :
  String.length (a ++ b) = String.length a + String.length b.
Proof. induction a as [|x a IH]; simpl; [reflexivity | now rewrite IH]. Qed.

Lemma take_app (a b : string) :
  JsString.take (String.length (a ++ b) - String.length b) (a ++ b)%string = a.
Proof.
  rewrite slength_app, Nat.add_sub.
  induction a as [|x a IH]; simpl.
  - destruct b; reflexivity.
  - now rewrite IH.
Qed.

Lemma drop_app (a b : string) : drop (String.length a) (a ++ b) = b.
Proof.
  induction a as [|x a IH]; simpl; [| exact IH].
  destruct b; reflexivity.
Qed.

Lemma take_nil (n : nat) : JsString.take n EmptyString = EmptyString.
Proof. destruct n; reflexivity. Qed.

Lemma countQuotes_app (a b : string) :
  countQuotes (a ++ b) = countQuotes a + countQuotes b.
Proof.
  induction a as [|x a IH]; simpl; [reflexivity |].
  rewrite IH. lia.
Qed.

Lemma inOrder_later (ms : list string) (pre s : string) :
  inOrder ms s -> inOrder ms (pre ++ s).
Proof.
  destruct ms as [|m ms]; simpl; [trivial |].
  intros (before & after & -> & H).
  exists (pre ++ before)%string, after. split; [| exact H].
  now rewrite sapp_assoc.
Qed.

Lemma inOrder_In (ms : list string) :
  forall s m, inOrder ms s -> In m ms ->
    exists before after, s = (before ++ m ++ after)%string.
Proof.
  induction ms as [|m0 ms IH]; intros s m Hord Hin; [destruct Hin |].
  destruct Hord as (before & after & -> & Hrest).
  destruct Hin as [-> | Hin].
  - now exists before, after.
  - destruct (IH after m Hrest Hin) as (b' & a' & ->).
    exists (before ++ m0 ++ b')%string, a'.
    now rewrite !sapp_assoc.
Qed.

(** ** The matcher: every match ends inside the input *)

Lemma many_suffix (ic : bool) (a : atom) (s : string) :
  forall prev q, In q (many ic a prev s) ->
    exists run, s = (run ++ snd q)%string.
Proof.
  induction s as [|c s IH]; intros prev q Hq; simpl in Hq.
  - destruct Hq as [<- | []]. now exists EmptyString.
  - destruct (atomMatches ic a c).
    + apply in_app_or in Hq as [Hq | [<- | []]].
      * destruct (IH _ _ Hq) as [run ->]. now exists (String c run).
      * now exists EmptyString.
    + destruct Hq as [<- | []]. now exists EmptyString.
Qed.

Lemma one_inv (ic : bool) (a : atom) (p q : position) :
  In q (one ic a p) ->
  exists c, snd p = String c (snd q) /\ fst q = Some c
            /\ atomMatches ic a c = true.
Proof.
  unfold one. destruct (snd p) as [|c s'] eqn:E; [intros [] |].
  destruct (atomMatches ic a c) eqn:M; [| intros []].
  intros [<- | []]. now exists c.
Qed.

Lemma matchR_suffix (ic : bool) (r : regex) :
  forall p q, In q (matchR ic r p) ->
    exists m, snd p = (m ++ snd q)%string.
Proof.
  induction r as [a | | r1 IH1 r2 IH2 | r1 IH1 r2 IH2 | a | a | r IH];
    intros p q Hq; simpl in Hq.
  - apply one_inv in Hq as (c & -> & _). now exists (str1 c).
  - destruct (atBoundary p); [| destruct Hq].
    destruct Hq as [<- | []]. now exists EmptyString.
  - apply in_flat_map in Hq as (mid & Hmid & Hq).
    destruct (IH1 _ _ Hmid) as [m1 ->], (IH2 _ _ Hq) as [m2 ->].
    exists (m1 ++ m2)%string. now rewrite sapp_assoc.
  - apply in_app_or in Hq as [Hq | Hq]; eauto.
  - eapply many_suffix; eauto.
  - apply in_flat_map in Hq as (mid & Hmid & Hq).
    apply one_inv in Hmid as (c & -> & _).
    destruct (many_suffix _ _ _ _ _ Hq) as [run ->].
    now exists (String c run).
  - eauto.
Qed.

Lemma exec_suffix (re : RegExp.t) (p q : position) :
  exec re p = Some q -> exists m, snd p = (m ++ snd q)%string.
Proof.
  unfold exec.
  destruct (matchR (ignoreCase re) (pattern re) p) as [|q' l] eqn:E;
    [discriminate |].
  intros [= <-]. apply (matchR_suffix (ignoreCase re) (pattern re)).
  rewrite E. now left.
Qed.

Lemma scan_here (re : RegExp.t) (prev : option ascii) (c : ascii) (s : string) :
  scan re 0 prev (String c s)
  = match exec re (prev, String c s) with
    | Some (_, rest) =>
        JsString.take (String.length (String c s) - String.length rest)
          (String c s)
          :: scan re (String.length (String c s) - String.length rest - 1)
               (Some c) s
    | None => scan re 0 (Some c) s
    end.
Proof. reflexivity. Qed.

(** The matches of a global scan occur in the input from left to right,
    one after the end of the other. *)
Lemma scan_inOrder (re : RegExp.t) (s : string) :
  forall skip prev, inOrder (scan re skip prev s) (drop skip s).
Proof.
  induction s as [|c s IH]; intros skip prev.
  - destruct skip as [|k]; simpl; [| trivial].
    destruct (exec re (prev, EmptyString)) as [[pv rest]|]; simpl; [| trivial].
    now exists EmptyString, EmptyString.
  - destruct skip as [|k]; [| apply IH].
    rewrite scan_here.
    destruct (exec re (prev, String c s)) as [[pv rest]|] eqn:E.
    + destruct (exec_suffix _ _ _ E) as [m Hm]. simpl snd in Hm.
      rewrite Hm, take_app, slength_app, Nat.add_sub.
      change (drop 0 (m ++ rest)) with (m ++ rest)%string.
      destruct m as [|c' m]; simpl in Hm.
      * exists EmptyString, (String c s). split; [now rewrite <- Hm |].
        apply (inOrder_later _ (str1 c)), (IH 0).
      * injection Hm as <- ->.
        exists EmptyString, rest. split; [reflexivity |].
        replace (String.length (String c m) - 1) with (String.length m)
          by (simpl; lia).
        specialize (IH (String.length m) (Some c)).
        now rewrite drop_app in IH.
    + apply (inOrder_later _ (str1 c)), (IH 0).
Qed.

(** Every match of a global scan is what [exec] reports at some position
    of the input. *)
Lemma scan_exec (re : RegExp.t) (s : string) :
  forall skip prev m, In m (scan re skip prev s) ->
    exists prev' rest q,
      exec re (prev', (m ++ rest)%string) = Some (q, rest).
Proof.
  induction s as [|c s IH]; intros skip prev m Hm.
  - destruct skip as [|k]; simpl in Hm; [| destruct Hm].
    destruct (exec re (prev, EmptyString)) as [[pv rest]|] eqn:E;
      [| destruct Hm].
    destruct Hm as [<- | []].
    destruct (exec_suffix _ _ _ E) as [m' Hm']. simpl in Hm'.
    destruct m'; [| discriminate]. simpl in Hm'. subst rest.
    exists prev, EmptyString, pv. exact E.
  - destruct skip as [|k]; [| exact (IH _ _ _ Hm)].
    rewrite scan_here in Hm.
    destruct (exec re (prev, String c s)) as [[pv rest]|] eqn:E.
    + destruct Hm as [<- | Hm]; [| exact (IH _ _ _ Hm)].
      destruct (exec_suffix _ _ _ E) as [m' Hm']. simpl snd in Hm'.
      rewrite Hm', take_app. exists prev, rest, pv. now rewrite <- Hm'.
    + exact (IH _ _ _ Hm).
Qed.

Lemma sapp_inv_tail (a b c : string) :
  (a ++ c)%string = (b ++ c)%string -> a = b.
Proof.
  intros H. rewrite <- (take_app a c), <- (take_app b c). now rewrite H.
Qed.

(** ** The quoted-term pattern *)

Lemma atomMatches_lit (q c : ascii) :
  atomMatches false (Lit q) c = Ascii.eqb c q.
Proof. reflexivity. Qed.

Lemma atomMatches_not (q c : ascii) :
  atomMatches false (Class true [q]) c = negb (Ascii.eqb c q).
Proof.
  unfold atomMatches, canonicalize. simpl. now rewrite orb_false_r.
Qed.

Lemma many_absent (q : ascii) (s : string) :
  forall prev p, In p (many false (Class true [q]) prev s) ->
    exists run, s = (run ++ snd p)%string /\ absent q run.
Proof.
  induction s as [|c s IH]; intros prev p Hp.
  - destruct Hp as [<- | []]. now exists EmptyString.
  - cbn [many] in Hp. rewrite atomMatches_not in Hp.
    destruct (Ascii.eqb_spec c q) as [_ | Hne]; simpl in Hp.
    + destruct Hp as [<- | []]. now exists EmptyString.
    + apply in_app_or in Hp as [Hp | [<- | []]].
      * destruct (IH _ _ Hp) as (run & -> & Hrun).
        exists (String c run). now repeat split.
      * now exists EmptyString.
Qed.

(** A match of [q([^q]+)q] is the quote [q], a non-empty run free of [q],
    and the quote [q] again. *)
Lemma matchR_quotedBy (q : ascii) (prev : option ascii) (s : string)
    (p : position) :
  In p (matchR false (quotedBy q) (prev, s)) ->
  exists inner,
    inner <> EmptyString /\ absent q inner
    /\ s = String q (inner ++ String q (snd p)).
Proof.
  unfold quotedBy. cbn [matchR]. intros Hp.
  apply in_flat_map in Hp as (p1 & H1 & Hp).
  apply in_flat_map in Hp as (p3 & H3 & Hp).
  apply in_flat_map in H3 as (p2 & H2 & H3).
  apply one_inv in H1 as (c1 & E1 & _ & M1).
  apply one_inv in H2 as (c2 & E2 & _ & M2).
  apply one_inv in Hp as (c3 & E3 & _ & M3).
  apply many_absent in H3 as (run & E & Hrun).
  rewrite atomMatches_lit in M1, M3. rewrite atomMatches_not in M2.
  apply Ascii.eqb_eq in M1, M3. subst c1 c3.
  apply negb_true_iff, Ascii.eqb_neq in M2.
  simpl snd in E1. rewrite E1, E2, E, E3.
  exists (String c2 run). repeat split; [discriminate | exact M2 | exact Hrun].
Qed.

Lemma exec_quoted (prev : option ascii) (s : string) (p : position) :
  exec quotedPattern (prev, s) = Some p ->
  exists q inner,
    (q = dquote \/ q = squote)
    /\ inner <> EmptyString /\ absent q inner
    /\ s = String q (inner ++ String q (snd p)).
Proof.
  unfold exec, quotedPattern. cbn [ignoreCase pattern matchR].
  destruct (matchR false (quotedBy dquote) (prev, s)
              ++ matchR false (quotedBy squote) (prev, s)) as [|p' l] eqn:E;
    [discriminate |].
  intros [= <-].
  assert (Hin : In p' (p' :: l)) by now left.
  rewrite <- E in Hin. apply in_app_or in Hin as [Hin | Hin];
    apply matchR_quotedBy in Hin as (inner & H1 & H2 & H3).
  - exists dquote, inner. auto.
  - exists squote, inner. auto.
Qed.

(** Every quoted term that the query scan reports is a quote character,
    a non-empty text without that character, and the same quote
    character. *)
Lemma quotedTerms_shape (query term : string) :
  In term (quotedTerms query) ->
  exists q inner,
    (q = dquote \/ q = squote)
    /\ inner <> EmptyString /\ absent q inner
    /\ term = (str1 q ++ inner ++ str1 q)%string.
Proof.
  intros Hin. apply scan_exec in Hin as (prev & rest & pv & E).
  apply exec_quoted in E as (q & inner & Hq & Hne & Habs & E).
  exists q, inner. repeat split; auto.
  apply (sapp_inv_tail _ _ rest). rewrite E. simpl.
  now rewrite !sapp_assoc.
Qed.

Lemma quotedTerms_inOrder (query : string) :
  inOrder (quotedTerms query) query.
Proof. apply (scan_inOrder quotedPattern query 0 None). Qed.

Lemma quotedTerms_two_quotes (query term : string) :
  In term (quotedTerms query) -> 2 <= countQuotes query.
Proof.
  intros Hin.
  destruct (inOrder_In _ _ _ (quotedTerms_inOrder query) Hin)
    as (before & after & ->).
  apply quotedTerms_shape in Hin as (q & inner & Hq & _ & _ & ->).
  rewrite !countQuotes_app. simpl.
  assert (isQuote q = true) as -> by (destruct Hq; subst; reflexivity).
  lia.
Qed.

(** ** Quote removal *)

Lemma erase_here (re : RegExp.t) (prev : option ascii) (c : ascii)
    (s : string) :
  erase re 0 prev (String c s)
  = match exec re (prev, String c s) with
    | Some (_, rest) =>
        match String.length (String c s) - String.length rest with
        | 0 => String c (erase re 0 (Some c) s)
        | S k => erase re k (Some c) s
        end
    | None => String c (erase re 0 (Some c) s)
    end.
Proof. reflexivity. Qed.

Lemma exec_quotePattern (prev : option ascii) (c : ascii) (s : string) :
  exec quotePattern (prev, String c s)
  = if isQuote c then Some (Some c, s) else None.
Proof.
  unfold exec, quotePattern, isQuote. cbn [ignoreCase pattern matchR one snd].
  unfold atomMatches, canonicalize. simpl.
  rewrite orb_false_r.
  now destruct (Ascii.eqb c squote || Ascii.eqb c dquote).
Qed.

(** The quote removal of the code drops every quote character of the
    term, of either kind and wherever it stands, and nothing else. *)
Lemma cleanTerm_withoutQuotes (term : string) :
  cleanTerm term = withoutQuotes term.
Proof.
  unfold cleanTerm, removeAll. generalize (@None ascii) as prev.
  induction term as [|c s IH]; intros prev; [reflexivity |].
  rewrite erase_here, exec_quotePattern. simpl withoutQuotes.
  destruct (isQuote c).
  - change (String.length (String c s)) with (S (String.length s)).
    replace (S (String.length s) - String.length s) with 1 by lia.
    apply IH.
  - now rewrite IH.
Qed.

(** ** The two loops of extractTopics *)

Lemma fold_labels (queryLower : string) (entries : list (string * RegExp.t)) :
  forall topics,
    fold_left
      (fun topics '(topic, pattern) =>
         if RegExp.test pattern queryLower then push topics topic else topics)
      entries topics
    = topics
        ++ map fst (filter (fun entry => RegExp.test (snd entry) queryLower)
                      entries).
Proof.
  induction entries as [|[topic pattern] entries IH]; intros topics; simpl.
  - now rewrite app_nil_r.
  - rewrite IH. destruct (RegExp.test pattern queryLower); [| reflexivity].
    unfold push. simpl. now rewrite <- app_assoc.
Qed.

Lemma fold_terms (terms : list string) :
  forall topics,
    fold_left
      (fun topics term =>
         let cleanTerm := cleanTerm term in
         if 2 <? String.length cleanTerm then push topics cleanTerm
         else topics)
      terms topics
    = topics
        ++ filter (fun term => 2 <? String.length term) (map cleanTerm terms).
Proof.
  induction terms as [|term terms IH]; intros topics; simpl.
  - now rewrite app_nil_r.
  - rewrite IH. destruct (2 <? String.length (cleanTerm term)); [| reflexivity].
    unfold push. simpl. now rewrite <- app_assoc.
Qed.

Lemma extractTopics_split (query domain : string) :
  extractTopics query domain = matchedLabels query domain ++ quotedTopics query.
Proof.
  unfold extractTopics, matchedLabels, quotedTopics.
  now rewrite fold_labels, fold_terms.
Qed.

(** ** Quoted terms among the topics *)

(** The topics are the matched pattern labels of the domain followed by
    the quoted terms; the quoted matches occur in the original query from
    left to right; a match contributes its form without quote characters,
    as [cleanTerm] computes it, exactly when that form has more than two
    characters; the removal drops quote characters only, so nothing is
    lowercased, and nothing is deduplicated: ['ab'] gives nothing, ['abc']
    and the double-quoted xyz give abc and xyz, and a term quoted twice, in
    capitals, comes out twice, as written, after the pattern label. *)
Theorem extractTopics_quoted_terms :
  (forall query domain,
      extractTopics query domain
      = matchedLabels query domain ++ quotedTopics query)
  /\ (forall query, inOrder (quotedTerms query) query)
  /\ (forall query,
         quotedTopics query
         = filter (fun term => 2 <? String.length term)
             (map cleanTerm (quotedTerms query)))
  /\ (forall query term,
         In term (quotedTopics query) <->
         exists m, In m (quotedTerms query) /\ term = cleanTerm m
                   /\ 2 < String.length (cleanTerm m))
  /\ (forall m, cleanTerm m = withoutQuotes m)
  /\ extractTopics "'ab'" "general" = []
  /\ extractTopics "'abc'" "general" = ["abc"]
  /\ extractTopics (dquoted "xyz") "general" = ["xyz"]
  /\ extractTopics ("my 'Hook' has state, 'ab' and " ++ dquoted "Hook")
       "react-docs"
     = ["state"; "Hook"; "Hook"].
Proof.
  split; [exact extractTopics_split |].
  split; [exact quotedTerms_inOrder |].
  split; [reflexivity |].
  split; [| split; [exact cleanTerm_withoutQuotes
                   | repeat split; vm_compute; reflexivity]].
  intros query term. unfold quotedTopics. rewrite filter_In, in_map_iff.
  rewrite Nat.ltb_lt. split.
  - intros [(m & <- & Hm) Hlen]. now exists m.
  - intros (m & Hm & -> & Hlen). split; [now exists m | exact Hlen].
Qed.

Lemma extractTopics_quoted_terms_witness :
  In "abc" (quotedTopics "see 'abc'").
Proof.
  apply (proj2 (proj1 (proj2 (proj2 (proj2 extractTopics_quoted_terms)))
                  "see 'abc'" "abc")).
  exists "'abc'". repeat split.
  - vm_compute. now left.
  - vm_compute. lia.
Defined.

(** ** Apostrophes as delimiters *)

Lemma countQuotes_drop (s : string) :
  forall k, countQuotes (drop k s) <= countQuotes s.
Proof.
  induction s as [|c s IH]; intros [|k]; simpl; try lia.
  specialize (IH k). lia.
Qed.

Lemma scan_two_quotes (s : string) (skip : nat) (prev : option ascii)
    (term : string) :
  In term (scan quotedPattern skip prev s) -> 2 <= countQuotes s.
Proof.
  intros Hin.
  destruct (inOrder_In _ _ _ (scan_inOrder quotedPattern s skip prev) Hin)
    as (before & after & E).
  apply scan_exec in Hin as (prev' & rest & pv & Hexec).
  apply exec_quoted in Hexec as (q & inner & Hq & _ & _ & E').
  apply (f_equal countQuotes) in E, E'.
  rewrite !countQuotes_app in E. rewrite countQuotes_app in E'.
  simpl in E'. rewrite countQuotes_app in E'. simpl in E'.
  assert (Hq' : isQuote q = true) by (destruct Hq; subst; reflexivity).
  rewrite Hq' in E'.
  pose proof (countQuotes_drop s skip). lia.
Qed.

Lemma scan_few_quotes (s : string) (skip : nat) (prev : option ascii) :
  countQuotes s <= 1 -> scan quotedPattern skip prev s = [].
Proof.
  intros Hfew.
  destruct (scan quotedPattern skip prev s) as [|term l] eqn:E;
    [reflexivity |].
  assert (Hin : In term (scan quotedPattern skip prev s))
    by (rewrite E; now left).
  apply scan_two_quotes in Hin. lia.
Qed.

(** Stepping over the rest of a match. *)
Lemma scan_skip (re : RegExp.t) (m rest : string) :
  forall prev, exists prev',
    scan re (String.length m) prev (m ++ rest) = scan re 0 prev' rest.
Proof.
  induction m as [|c m IH]; intros prev; simpl.
  - now exists prev.
  - apply IH.
Qed.

(** No match starts at a character that is not a quote. *)
Lemma exec_quoted_start (prev : option ascii) (c : ascii) (s : string) :
  isQuote c = false -> exec quotedPattern (prev, String c s) = None.
Proof.
  intros Hc.
  destruct (exec quotedPattern (prev, String c s)) as [p|] eqn:E;
    [| reflexivity].
  apply exec_quoted in E as (q & inner & Hq & _ & _ & E).
  injection E as -> _. destruct Hq; subst; discriminate.
Qed.

Lemma scan_unquoted_prefix (a s : string) :
  countQuotes a = 0 ->
  forall prev, exists prev',
    scan quotedPattern 0 prev (a ++ s) = scan quotedPattern 0 prev' s.
Proof.
  induction a as [|c a IH]; intros Ha prev.
  - now exists prev.
  - simpl in Ha. destruct (isQuote c) eqn:Hc; [discriminate |].
    simpl append. rewrite scan_here, exec_quoted_start by exact Hc.
    apply IH. exact Ha.
Qed.

Lemma countQuotes_absent (q : ascii) (s : string) :
  isQuote q = true -> countQuotes s = 0 -> absent q s.
Proof.
  intros Hq. induction s as [|c s IH]; simpl; [trivial |].
  destruct (isQuote c) eqn:Hc; [discriminate |].
  intros Hs. split; [| now apply IH].
  intros ->. congruence.
Qed.

(** The greedy run of [[^q]+] goes up to the next [q] first. *)
Lemma many_longest (q : ascii) (run rest : string) :
  absent q run ->
  forall prev, exists pv l,
    many false (Class true [q]) prev (run ++ String q rest)
    = (pv, String q rest) :: l.
Proof.
  induction run as [|c run IH]; intros Habs prev.
  - simpl append. cbn [many]. rewrite atomMatches_not, Ascii.eqb_refl. simpl.
    now exists prev, [].
  - destruct Habs as [Hc Habs]. simpl append. cbn [many].
    rewrite atomMatches_not. apply Ascii.eqb_neq in Hc. rewrite Hc. simpl.
    destruct (IH Habs (Some c)) as (pv & l & ->).
    now exists pv, (l ++ [(prev, String c (run ++ String q rest))]).
Qed.

(** An apostrophe, a non-empty text without one, an apostrophe: the
    match that starts at the first apostrophe ends after the second. *)
Lemma exec_apostrophes (prev : option ascii) (inner rest : string) :
  inner <> EmptyString ->
  absent squote inner ->
  exec quotedPattern
    (prev, String squote (inner ++ String squote rest))
  = Some (Some squote, rest).
Proof.
  intros Hne Habs. destruct inner as [|c inner]; [contradiction |].
  destruct Habs as [Hc Habs]. apply Ascii.eqb_neq in Hc.
  destruct (many_longest squote inner rest Habs (Some c)) as (pv & l & E).
  unfold exec, quotedPattern, quotedBy.
  cbn [ignoreCase pattern matchR one snd fst flat_map append].
  rewrite !atomMatches_lit.
  change (Ascii.eqb squote dquote) with false.
  change (Ascii.eqb squote squote) with true.
  cbn [flat_map app snd fst one append].
  rewrite atomMatches_not, Hc.
  cbn [negb flat_map app snd fst]. rewrite E.
  cbn [flat_map app snd fst one]. rewrite atomMatches_lit.
  change (Ascii.eqb squote squote) with true. reflexivity.
Qed.

Lemma withoutQuotes_unquoted (s : string) :
  countQuotes s = 0 -> withoutQuotes s = s.
Proof.
  induction s as [|c s IH]; simpl; [reflexivity |].
  destruct (isQuote c); [discriminate |].
  intros Hs. now rewrite IH.
Qed.

Lemma withoutQuotes_app (a b : string) :
  withoutQuotes (a ++ b) = (withoutQuotes a ++ withoutQuotes b)%string.
Proof.
  induction a as [|c a IH]; simpl; [reflexivity |].
  rewrite IH. now destruct (isQuote c).
Qed.

(** Two apostrophes, no other quote character: the text between them is
    the one quoted term of the query. *)
Lemma quotedTerms_apostrophe_pair (before inner after : string) :
  countQuotes before = 0 ->
  countQuotes inner = 0 ->
  inner <> EmptyString ->
  countQuotes after = 0 ->
  quotedTerms (before ++ squoted inner ++ after) = [squoted inner].
Proof.
  intros Hb Hi Hne Ha. unfold quotedTerms, matchAll.
  destruct (scan_unquoted_prefix before (squoted inner ++ after) Hb None)
    as [prev ->].
  assert (E : (squoted inner ++ after)%string
              = String squote (inner ++ String squote after)).
  { unfold squoted, str1. simpl. now rewrite sapp_assoc. }
  rewrite E, scan_here, exec_apostrophes;
    [| exact Hne | now apply countQuotes_absent].
  rewrite <- E, take_app. f_equal.
  rewrite slength_app, Nat.add_sub.
  replace (String.length (squoted inner) - 1)
    with (String.length (inner ++ str1 squote))
    by (unfold squoted, str1; simpl; lia).
  replace (inner ++ String squote after)%string
    with ((inner ++ str1 squote) ++ after)%string
    by now rewrite sapp_assoc.
  destruct (scan_skip quotedPattern (inner ++ str1 squote) after (Some squote))
    as [prev' ->].
  apply scan_few_quotes. lia.
Qed.

Lemma cleanTerm_squoted (inner : string) :
  countQuotes inner = 0 -> cleanTerm (squoted inner) = inner.
Proof.
  intros Hi. rewrite cleanTerm_withoutQuotes. unfold squoted.
  rewrite !withoutQuotes_app, (withoutQuotes_unquoted inner Hi).
  simpl. apply sapp_nil_r.
Qed.

(** ** Two apostrophes *)















(** ** Interior quote characters *)

(** C2: on the query [say "it's" now] the one quoted match is the
    double-quoted [it's]; with its two surrounding quote characters removed
    it is [it's], but the topic that [extractTopics] appends is [its]: the
    apostrophe inside the term is dropped with the delimiters. *)
Theorem extractTopics_interior_quote :
  quotedTerms ("say " ++ dquoted "it's" ++ " now") = [dquoted "it's"]
  /\ stripSurrounding (dquoted "it's") = "it's"
  /\ cleanTerm (dquoted "it's") = "its"
  /\ extractTopics ("say " ++ dquoted "it's" ++ " now") "general" = ["its"].
Proof. repeat split; vm_compute; reflexivity. Qed.

(** C8: on the query [see "a'b"] the one quoted match is the double-quoted
    [a'b]; with its two surrounding quote characters removed it is [a'b],
    of three characters, yet [extractTopics] appends nothing: the length
    test is made on [ab], the term with the interior apostrophe removed as
    well.  (The removal of interior quote characters is the one of C2.) *)
Theorem extractTopics_quoted_length_interior_quote :
  quotedTerms ("see " ++ dquoted "a'b") = [dquoted "a'b"]
  /\ stripSurrounding (dquoted "a'b") = "a'b"
  /\ String.length (stripSurrounding (dquoted "a'b")) = 3
  /\ cleanTerm (dquoted "a'b") = "ab"
  /\ extractTopics ("see " ++ dquoted "a'b") "general" = [].
Proof. repeat split; vm_compute; reflexivity. Qed.

(** ** The fetch-documentation tool *)

Lemma inPrototype_false (d : string) :
  ~ In d JsObject.objectPrototypeNames -> JsObject.inPrototype d = false.
Proof.
  intros Hd. unfold JsObject.inPrototype.
  destruct (existsb (String.eqb d) JsObject.objectPrototypeNames) eqn:E;
    [| reflexivity].
  apply existsb_exists in E as (x & Hx & Heq).
  apply String.eqb_eq in Heq. now subst x.
Qed.

Lemma resources_missing (fetch : string -> option string) (now d : string) :
  ~ In d configuredDomains ->
  ~ In d JsObject.objectPrototypeNames ->
  JsObject.get (resources fetch now) d = JsObject.Missing.
Proof.
  intros Hc Hp. unfold JsObject.get, resources. cbn [JsObject.own].
  repeat match goal with
         | |- context [String.eqb ?k d] =>
             destruct (String.eqb_spec k d) as [<- | _];
             [exfalso; apply Hc; simpl; tauto |]
         end.
  now rewrite inPrototype_false.
Qed.

(** On the path that returns the fetched page the topics are defaulted:
    the field is never empty there. *)
Lemma fetched_topics_default (fetch : string -> option string)
    (now query : string) (specifiedDomain : option string)
    (d : string) (topics : list string) (url : option string)
    (page src : string) :
  fetchDocumentationTool fetch now query specifiedDomain
  = Fetched d topics url page src ->
  topics <> []
  /\ (extractTopics query d = [] -> topics = ["general"]).
Proof.
  unfold fetchDocumentationTool, tryFetch.
  destruct (JsObject.get _ _) as [handler | |]; try discriminate.
  intros [= <- <- _ _ _].
  destruct (extractTopics query (resolveDomain query specifiedDomain))
    as [|t ts]; simpl.
  - split; [discriminate | reflexivity].
  - split; [discriminate | discriminate].
Qed.

(** C3: with the query hello and the explicit domain rust-docs, which has
    no resource, no topic is extracted and the response that the tool
    returns carries the empty topic list, not the list with the one entry
    general: the error path returns the topics as extracted. *)
Theorem fetchDocumentationTool_error_topics :
  forall (fetch : string -> option string) (now : string),
    extractTopics "hello" "rust-docs" = []
    /\ fetchDocumentationTool fetch now "hello" (Some "rust-docs")
       = Failed "rust-docs" []
           "Error fetching documentation for this domain."
           "Error: Unknown domain: rust-docs"
    /\ responseTopics
         (fetchDocumentationTool fetch now "hello" (Some "rust-docs")) = [].
Proof. intros fetch now. repeat split. Qed.

(** For every explicitly supplied, non-empty domain name that is neither
    one of the configured resource domains nor the name of a member of
    Object.prototype, the tool returns the error response with
    the supplied domain, the extracted topics and the error text
    [Error: Unknown domain: ] followed by the name; and whatever the try
    block throws, for any query and domain, the tool returns the error
    response with the text of the exception: nothing propagates to the
    caller. *)
Theorem fetchDocumentationTool_unknown_domain :
  (forall (fetch : string -> option string) (now query d : string),
      d <> EmptyString ->
      ~ In d configuredDomains ->
      ~ In d JsObject.objectPrototypeNames ->
      fetchDocumentationTool fetch now query (Some d)
      = Failed d (extractTopics query d)
          "Error fetching documentation for this domain."
          ("Error: Unknown domain: " ++ d))
  /\ (forall (fetch : string -> option string) (now query : string)
             (specifiedDomain : option string) (e : exception),
         let domain := resolveDomain query specifiedDomain in
         let topics := extractTopics query domain in
         tryFetch fetch now domain topics (constructSpecificUrl domain topics)
         = inl e ->
         fetchDocumentationTool fetch now query specifiedDomain
         = Failed domain topics
             "Error fetching documentation for this domain."
             (stringOfException e)).
Proof.
  split.
  - intros fetch now query d Hne Hc Hp.
    unfold fetchDocumentationTool, tryFetch.
    assert (E : resolveDomain query (Some d) = d).
    { unfold resolveDomain. destruct d; [contradiction | reflexivity]. }
    rewrite E, resources_missing by assumption. reflexivity.
  - intros fetch now query specifiedDomain e domain topics Hthrow.
    unfold fetchDocumentationTool. fold domain. fold topics.
    now rewrite Hthrow.
Qed.

Lemma fetchDocumentationTool_unknown_domain_witness :
  fetchDocumentationTool (fun _ => None) "2024-01-01T00:00:00.000Z"
    "How do I use lists?" (Some "rust-docs")
  = Failed "rust-docs" []
      "Error fetching documentation for this domain."
      "Error: Unknown domain: rust-docs".
Proof.
  apply (proj1 fetchDocumentationTool_unknown_domain
           (fun _ => None) "2024-01-01T00:00:00.000Z"
           "How do I use lists?" "rust-docs").
  - discriminate.
  - simpl. intuition discriminate.
  - simpl. intuition discriminate.
Defined.

(** The empty string as domain: it is supplied explicitly and is no
    configured domain, yet the tool classifies the query
    instead, and returns the page response for general, without an error
    field and with a domain that is not the supplied one. *)
Lemma fetchDocumentationTool_unknown_domain_counterexample :
  existsb (String.eqb EmptyString) configuredDomains = false
  /\ fetchDocumentationTool (fun _ => None) "2024-01-01T00:00:00.000Z"
       "hello" (Some EmptyString)
     = Fetched "general" ["general"] None
         "Please provide a specific URL for general documentation queries."
         "none"
  /\ responseDomain
       (fetchDocumentationTool (fun _ => None) "2024-01-01T00:00:00.000Z"
          "hello" (Some EmptyString)) = "general"
  /\ responseError
       (fetchDocumentationTool (fun _ => None) "2024-01-01T00:00:00.000Z"
          "hello" (Some EmptyString)) = None.
Proof. repeat split. Qed.

(** C9: with the explicit domain toString, which is no configured domain,
    the lookup in the resources finds a member of Object.prototype, the
    unknown-domain check lets it through, and the response reports the
    failed call of its missing handler, not the unknown domain; so it is
    for each of the twelve inherited names.  For every other non-empty
    name that is not configured the response is the unknown-domain error
    with the supplied domain; an empty string as domain is the same as no
    domain; and nothing thrown in the try block reaches the caller. *)
Theorem fetchDocumentationTool_inherited_domain :
  forall (fetch : string -> option string) (now : string),
    existsb (String.eqb "toString") configuredDomains = false
    /\ fetchDocumentationTool fetch now "hello" (Some "toString")
       = Failed "toString" []
           "Error fetching documentation for this domain."
           "TypeError: resource.handler is not a function"
    /\ (forall query d,
           In d JsObject.objectPrototypeNames ->
           fetchDocumentationTool fetch now query (Some d)
           = Failed d (extractTopics query d)
               "Error fetching documentation for this domain."
               "TypeError: resource.handler is not a function")
    /\ (forall query d,
           d <> EmptyString ->
           ~ In d configuredDomains ->
           ~ In d JsObject.objectPrototypeNames ->
           fetchDocumentationTool fetch now query (Some d)
           = Failed d (extractTopics query d)
               "Error fetching documentation for this domain."
               ("Error: Unknown domain: " ++ d))
    /\ (forall query,
           fetchDocumentationTool fetch now query (Some EmptyString)
           = fetchDocumentationTool fetch now query None)
    /\ (forall query specifiedDomain e,
           tryFetch fetch now (resolveDomain query specifiedDomain)
             (extractTopics query (resolveDomain query specifiedDomain))
             (constructSpecificUrl (resolveDomain query specifiedDomain)
                (extractTopics query (resolveDomain query specifiedDomain)))
           = inl e ->
           fetchDocumentationTool fetch now query specifiedDomain
           = Failed (resolveDomain query specifiedDomain)
               (extractTopics query (resolveDomain query specifiedDomain))
               "Error fetching documentation for this domain."
               (stringOfException e)).
Proof.
  intros fetch now.
  split; [reflexivity |]. split; [reflexivity |]. split; [| split; [| split]].
  - intros query d Hd. unfold JsObject.objectPrototypeNames in Hd.
    cbn [In] in Hd.
    repeat (destruct Hd as [<- | Hd]; [reflexivity |]). destruct Hd.
  - intros query d Hne Hc Hp.
    unfold fetchDocumentationTool, tryFetch.
    assert (E : resolveDomain query (Some d) = d).
    { unfold resolveDomain. destruct d; [contradiction | reflexivity]. }
    rewrite E, resources_missing by assumption. reflexivity.
  - reflexivity.
  - intros query specifiedDomain e Hthrow.
    unfold fetchDocumentationTool. now rewrite Hthrow.
Qed.

Lemma fetchDocumentationTool_inherited_domain_witness :
  fetchDocumentationTool (fun _ => None) "2024-01-01T00:00:00.000Z"
    "How do I use 'lists'?" (Some "constructor")
  = Failed "constructor" ["lists"]
      "Error fetching documentation for this domain."
      "TypeError: resource.handler is not a function".
Proof.
  apply (proj1 (proj2 (proj2 (fetchDocumentationTool_inherited_domain
                                (fun _ => None) "2024-01-01T00:00:00.000Z")))
           "How do I use 'lists'?" "constructor").
  simpl. tauto.
Defined.

(** ** Substring search *)

Lemma startsWith_spec (p : string) :
  forall s, JsString.startsWith s p = true <-> exists b, s = (p ++ b)%string.
Proof.
  induction p as [|c p IH]; intros s.
  - split; [intros _; now exists s | intros _; now destruct s].
  - destruct s as [|x s]; simpl.
    + split; [discriminate | intros [b Hb]; discriminate].
    + rewrite andb_true_iff, Ascii.eqb_eq, IH. split.
      * intros [-> [b ->]]. now exists b.
      * intros [b [= -> ->]]. split; [reflexivity | now exists b].
Qed.

(** [s.includes(p)] holds exactly when [p] is a substring of [s]. *)
Lemma includes_spec (p : string) :
  forall s,
    JsString.includes s p = true
    <-> exists a b, s = (a ++ p ++ b)%string.
Proof.
  induction s as [|x s IH].
  - cbn [JsString.includes]. rewrite orb_false_r, startsWith_spec. split.
    + intros [b Hb]. now exists EmptyString, b.
    + intros (a & b & H). destruct a; [now exists b | discriminate].
  - cbn [JsString.includes]. rewrite orb_true_iff, startsWith_spec, IH. split.
    + intros [[b Hb] | (a & b & ->)].
      * now exists EmptyString, b.
      * now exists (String x a), b.
    + intros (a & b & H). destruct a as [|y a].
      * left. now exists b.
      * right. injection H as -> ->. now exists a, b.
Qed.

Lemma toLowerCase_app (a b : string) :
  JsString.toLowerCase (a ++ b)
  = (JsString.toLowerCase a ++ JsString.toLowerCase b)%string.
Proof. induction a as [|x a IH]; simpl; [reflexivity | now rewrite IH]. Qed.

Lemma includes_extend (s p before after : string) :
  JsString.includes s p = true ->
  JsString.includes (before ++ s ++ after) p = true.
Proof.
  rewrite !includes_spec. intros (a & b & ->).
  exists (before ++ a)%string, (b ++ after)%string.
  now rewrite !sapp_assoc.
Qed.

(** ** Keyword scores *)

Lemma keywordScore_count (queryLower : string) (keywords : list string) :
  keywordScore queryLower keywords
  = List.length (filter (JsString.includes queryLower) keywords).
Proof.
  unfold keywordScore.
  assert (G : forall n,
             fold_left
               (fun count keyword =>
                  count + (if JsString.includes queryLower keyword
                           then 1 else 0)) keywords n
             = n + List.length (filter (JsString.includes queryLower) keywords)).
  { induction keywords as [|k ks IH]; intros n; simpl; [lia |].
    rewrite IH. destruct (JsString.includes queryLower k); simpl; lia. }
  apply G.
Qed.

Lemma filter_length_le {A} (f : A -> bool) (l : list A) :
  List.length (filter f l) <= List.length l.
Proof.
  induction l as [|x l IH]; simpl; [lia |].
  destruct (f x); simpl; lia.
Qed.

Lemma filter_length_mono {A} (f g : A -> bool) (l : list A) :
  (forall x, f x = true -> g x = true) ->
  List.length (filter f l) <= List.length (filter g l).
Proof.
  intros Hfg. induction l as [|x l IH]; simpl; [lia |].
  destruct (f x) eqn:Hf.
  - rewrite (Hfg x Hf). simpl. lia.
  - destruct (g x); simpl; lia.
Qed.

Lemma own_In {V} (o : JsObject.object V) (k : string) (v : V) :
  JsObject.own o k = Some v -> In (k, v) o.
Proof.
  induction o as [|[k' v'] o IH]; simpl; [discriminate |].
  destruct (String.eqb_spec k' k) as [-> | _].
  - intros [= ->]. now left.
  - intros H. right. now apply IH.
Qed.

Lemma own_enumeration (d : string) :
  JsObject.own domainKeywords d <> None <-> In d enumeration.
Proof.
  unfold enumeration, domainKeywords, JsObject.keys.
  cbn [JsObject.own map fst In].
  repeat match goal with
         | |- context [String.eqb ?k d] =>
             destruct (String.eqb_spec k d) as [<- | ?]
         end; split; intros H; try discriminate; intuition congruence.
Qed.

Lemma positive_score_keyword (query d : string) :
  0 < domainScore query d ->
  exists keywords keyword,
    In (d, keywords) domainKeywords /\ In keyword keywords
    /\ JsString.includes (JsString.toLowerCase query) keyword = true.
Proof.
  unfold domainScore.
  destruct (JsObject.own domainKeywords d) as [keywords|] eqn:E; [| lia].
  rewrite keywordScore_count. intros Hpos.
  destruct (filter (JsString.includes (JsString.toLowerCase query)) keywords)
    as [|keyword l] eqn:F; [simpl in Hpos; lia |].
  assert (Hin : In keyword (keyword :: l)) by now left.
  rewrite <- F in Hin. apply filter_In in Hin as [Hin Hinc].
  exists keywords, keyword. split; [now apply own_In | now split].
Qed.

(** ** The selected domain has the highest score *)

Lemma selectBest_max (scores : list (string * nat)) :
  forall b h,
    h <= snd (selectBest scores (b, h))
    /\ (forall e, In e scores -> snd e <= snd (selectBest scores (b, h)))
    /\ (selectBest scores (b, h) = (b, h)
        \/ (In (selectBest scores (b, h)) scores
            /\ h < snd (selectBest scores (b, h)))).
Proof.
  induction scores as [|[d s] scores IH]; intros b h.
  - simpl. split; [lia |]. split; [intros e [] | now left].
  - unfold selectBest. cbn [fold_left better].
    fold (selectBest scores (if h <? s then (d, s) else (b, h))).
    destruct (Nat.ltb_spec h s) as [Hlt | Hge].
    + destruct (IH d s) as (H1 & H2 & H3).
      split; [lia |]. split.
      * intros e [<- | He]; [exact H1 | now apply H2].
      * right. destruct H3 as [-> | [H3 H4]].
        -- split; [now left | exact Hlt].
        -- split; [now right | lia].
    + destruct (IH b h) as (H1 & H2 & H3).
      split; [exact H1 |]. split.
      * intros e [<- | He]; [simpl; lia | now apply H2].
      * destruct H3 as [-> | [H3 H4]]; [now left |].
        right. split; [now right | exact H4].
Qed.

(** What [determineDomain] returns, in terms of the scores: general when
    no domain scores, and otherwise an enumerated domain whose score is
    positive and not below any other. *)
Lemma determineDomain_cases (query : string) :
  (determineDomain query = "general"
   /\ forall d, domainScore query d = 0)
  \/ (In (determineDomain query) enumeration
      /\ 0 < domainScore query (determineDomain query)
      /\ forall d, domainScore query d
                   <= domainScore query (determineDomain query)).
Proof.
  rewrite determineDomain_selectBest.
  pose proof (selectBest_max
                (map (fun d => (d, domainScore query d)) enumeration)
                "general" 0) as (H1 & H2 & H3).
  destruct (selectBest _ _) as [b h]. simpl snd in *.
  assert (Hall : forall d, domainScore query d <= h).
  { intros d.
    destruct (JsObject.own domainKeywords d) as [keywords|] eqn:E.
    - apply (H2 (d, domainScore query d)). apply in_map_iff.
      exists d. split; [reflexivity |]. apply own_enumeration. congruence.
    - unfold domainScore. rewrite E. lia. }
  destruct H3 as [[= -> ->] | [Hin Hpos]].
  - left. split; [reflexivity |]. intros d. specialize (Hall d). lia.
  - right. apply in_map_iff in Hin as (d & [= -> <-] & Hd).
    apply Nat.ltb_lt in Hpos as Hpos'. rewrite Hpos'.
    split; [exact Hd |]. split; [exact Hpos | exact Hall].
Qed.

Lemma enumeration_not_general : ~ In "general" enumeration.
Proof. simpl. intuition discriminate. Qed.

Lemma determineDomain_configured (query : string) :
  In (determineDomain query) configuredDomains.
Proof.
  destruct (determineDomain_cases query) as [[-> _] | [H _]].
  - simpl. tauto.
  - simpl in *. tauto.
Qed.

Lemma keyword_positive_score (query d keyword : string)
    (keywords : list string) :
  In (d, keywords) domainKeywords ->
  In keyword keywords ->
  JsString.includes (JsString.toLowerCase query) keyword = true ->
  0 < domainScore query d.
Proof.
  intros Hd Hk Hinc.
  assert (E : JsObject.own domainKeywords d = Some keywords).
  { unfold domainKeywords in *. cbn [In] in Hd.
    destruct Hd as [Hd | [Hd | [Hd | []]]]; injection Hd as <- <-;
      reflexivity. }
  unfold domainScore. rewrite E, keywordScore_count.
  assert (Hin : In keyword
                  (filter (JsString.includes (JsString.toLowerCase query))
                     keywords))
    by (apply filter_In; now split).
  destruct (filter _ keywords); [destruct Hin | simpl; lia].
Qed.

Lemma lowerChar_idem (c : ascii) :
  JsString.lowerChar (JsString.lowerChar c) = JsString.lowerChar c.
Proof. destruct c as [[] [] [] [] [] [] [] []]; reflexivity. Qed.

Lemma toLowerCase_idem (s : string) :
  JsString.toLowerCase (JsString.toLowerCase s) = JsString.toLowerCase s.
Proof.
  induction s as [|c s IH]; simpl; [reflexivity |].
  now rewrite lowerChar_idem, IH.
Qed.

(** ** More on determineDomain *)

(** X1: the [determine-domain] tool answers with confidence high exactly
    when some keyword of some domain is a substring of the lowercased
    query, and with confidence low exactly when the domain is general. *)
Theorem determineDomainTool_confidence (query : string) :
  classifiedDomain (determineDomainTool query) = determineDomain query
  /\ (confidence (determineDomainTool query) = "high"
      <-> exists domain keywords keyword before after,
            In (domain, keywords) domainKeywords
            /\ In keyword keywords
            /\ JsString.toLowerCase query
               = (before ++ keyword ++ after)%string)
  /\ (confidence (determineDomainTool query) = "low"
      <-> classifiedDomain (determineDomainTool query) = "general").
Proof.
  split; [reflexivity |].
  unfold determineDomainTool. cbn [confidence classifiedDomain].
  destruct (determineDomain_cases query) as [[E Hzero] | (Hin & Hpos & _)].
  - rewrite E. cbn. split; split; try discriminate; try reflexivity.
    intros (domain & keywords & keyword & before & after & Hd & Hk & Hsub).
    assert (Hinc : JsString.includes (JsString.toLowerCase query) keyword
                   = true)
      by (apply includes_spec; now exists before, after).
    pose proof (keyword_positive_score _ _ _ _ Hd Hk Hinc) as Hp.
    rewrite Hzero in Hp. lia.
  - assert (Hne : determineDomain query <> "general")
      by (intros E; rewrite E in Hin; now apply enumeration_not_general).
    apply String.eqb_neq in Hne as Hne'. rewrite Hne'. cbn.
    split; split; try discriminate; try reflexivity; try contradiction.
    intros _.
    destruct (positive_score_keyword _ _ Hpos)
      as (keywords & keyword & Hd & Hk & Hinc).
    apply includes_spec in Hinc as (before & after & Hsub).
    now exists (determineDomain query), keywords, keyword, before, after.
Qed.

Lemma determineDomainTool_confidence_witness :
  confidence (determineDomainTool "Explain PROPS to me") = "high".
Proof.
  apply (proj2 (proj1 (proj2 (determineDomainTool_confidence
                                "Explain PROPS to me")))).
  exists "react-docs",
    ["react"; "component"; "jsx"; "hook"; "props"; "state"], "props",
    "explain ", " to me".
  repeat split.
  - now left.
  - simpl. tauto.
Defined.

(** X2: the domain that [determineDomain] returns has the highest score:
    no domain, enumerated or not, scores more on the query; and the result
    is general exactly when every domain scores 0. *)
Theorem determineDomain_highest_score (query : string) :
  (forall d, domainScore query d <= domainScore query (determineDomain query))
  /\ (determineDomain query = "general"
      <-> forall d, domainScore query d = 0).
Proof.
  destruct (determineDomain_cases query) as [[E Hzero] | (Hin & Hpos & Hmax)].
  - split.
    + intros d. rewrite Hzero. lia.
    + split; [intros _; exact Hzero | intros _; exact E].
  - split; [exact Hmax |]. split.
    + intros E. rewrite E in Hin. now apply enumeration_not_general in Hin.
    + intros Hzero. rewrite Hzero in Hpos. lia.
Qed.

Lemma determineDomain_highest_score_witness :
  determineDomain "zzz" = "general".
Proof.
  apply (proj2 (proj2 (determineDomain_highest_score "zzz"))).
  intros d. unfold domainScore.
  destruct (JsObject.own domainKeywords d) as [keywords|] eqn:E;
    [| reflexivity].
  apply own_In in E. simpl in E.
  destruct E as [E | [E | [E | []]]]; injection E as <- <-;
    vm_compute; reflexivity.
Defined.

(** X3: the score of a domain is the number of its keywords that the
    lowercased query contains, each counted once however often it occurs;
    it never exceeds 6, the number of keywords of a domain. *)
Theorem domainScore_counts_keywords :
  (forall queryLower keywords,
      keywordScore queryLower keywords
      = List.length (filter (JsString.includes queryLower) keywords))
  /\ (forall query d, domainScore query d <= 6).
Proof.
  split; [exact keywordScore_count |].
  intros query d. unfold domainScore.
  destruct (JsObject.own domainKeywords d) as [keywords|] eqn:E; [| lia].
  rewrite keywordScore_count.
  etransitivity; [apply filter_length_le |].
  apply own_In in E. simpl in E.
  destruct E as [E | [E | [E | []]]]; injection E as <- <-; simpl; lia.
Qed.

(** X4: text added before or after a query never lowers the score of a
    domain. *)
Theorem domainScore_monotone (query d before after : string) :
  domainScore query d <= domainScore (before ++ query ++ after) d.
Proof.
  unfold domainScore.
  destruct (JsObject.own domainKeywords d) as [keywords|]; [| lia].
  rewrite !keywordScore_count, !toLowerCase_app.
  apply filter_length_mono. intros keyword. apply includes_extend.
Qed.

(** X5: classification and pattern matching ignore letter case: two
    queries with the same lowercase form get the same domain and the same
    pattern labels, and lowercasing a query changes neither. *)
Theorem classification_ignores_case :
  (forall query1 query2,
      JsString.toLowerCase query1 = JsString.toLowerCase query2 ->
      determineDomain query1 = determineDomain query2
      /\ forall domain,
           matchedLabels query1 domain = matchedLabels query2 domain)
  /\ (forall query,
         determineDomain (JsString.toLowerCase query) = determineDomain query
         /\ forall domain,
              matchedLabels (JsString.toLowerCase query) domain
              = matchedLabels query domain).
Proof.
  assert (H : forall query1 query2,
             JsString.toLowerCase query1 = JsString.toLowerCase query2 ->
             determineDomain query1 = determineDomain query2
             /\ forall domain,
                  matchedLabels query1 domain = matchedLabels query2 domain).
  { intros query1 query2 E. unfold determineDomain, matchedLabels.
    now rewrite E. }
  split; [exact H |].
  intros query. apply H, toLowerCase_idem.
Qed.

Lemma classification_ignores_case_witness :
  determineDomain "REACT Hooks" = determineDomain "react hooks".
Proof.
  apply (proj1 classification_ignores_case "REACT Hooks" "react hooks").
  reflexivity.
Defined.

(** ** The pattern tables *)

Lemma patternEntries_cases (d : string) :
  In d enumeration \/ patternEntries d = [].
Proof.
  unfold patternEntries, JsObject.get, topicPatterns, enumeration,
    domainKeywords, JsObject.keys.
  cbn [JsObject.own map fst In].
  repeat match goal with
         | |- context [String.eqb ?k d] =>
             destruct (String.eqb_spec k d) as [<- | ?]
         end; auto.
  right. now destruct (JsObject.inPrototype d).
Qed.

Lemma labelsOf_NoDup (d : string) : NoDup (labelsOf d).
Proof.
  unfold labelsOf.
  destruct (patternEntries_cases d) as [[<- | [<- | [<- | []]]] | ->];
    vm_compute; repeat constructor; simpl; intuition discriminate.
Qed.

Lemma labelsOf_length (d : string) : List.length (labelsOf d) <= 13.
Proof.
  unfold labelsOf.
  destruct (patternEntries_cases d) as [[<- | [<- | [<- | []]]] | ->];
    vm_compute; lia.
Qed.

Lemma labelsOf_no_quotes (d label : string) :
  In label (labelsOf d) -> countQuotes label = 0.
Proof.
  unfold labelsOf.
  destruct (patternEntries_cases d) as [[<- | [<- | [<- | []]]] | ->];
    intros H; vm_compute in H;
    repeat (destruct H as [<- | H]; [reflexivity |]); destruct H.
Qed.

(** Filtering the entries of a table whose keys are distinct is filtering
    its keys. *)
Lemma filter_keys {V} (f : string * V -> bool) (es : list (string * V)) :
  NoDup (map fst es) ->
  map fst (filter f es)
  = filter (fun k => existsb (fun e => String.eqb (fst e) k && f e) es)
      (map fst es).
Proof.
  induction es as [|[k v] es IH]; intros Hnd; [reflexivity |].
  simpl map in Hnd. apply NoDup_cons_iff in Hnd as [Hk Hnd].
  cbn [filter map fst existsb]. rewrite String.eqb_refl. cbn [andb].
  assert (Hout : existsb (fun e => String.eqb (fst e) k && f e) es = false).
  { destruct (existsb _ es) eqn:E; [| reflexivity].
    apply existsb_exists in E as (e & He & Hb).
    apply andb_true_iff in Hb as [Hb _]. apply String.eqb_eq in Hb.
    exfalso. apply Hk. rewrite <- Hb. now apply in_map. }
  rewrite Hout, orb_false_r.
  assert (Hrest : filter
                    (fun k' => (String.eqb k k' && f (k, v))
                               || existsb
                                    (fun e => String.eqb (fst e) k' && f e) es)
                    (map fst es)
                  = map fst (filter f es)).
  { rewrite (IH Hnd). apply filter_ext_in. intros k' Hk'.
    destruct (String.eqb_spec k k') as [-> | _]; [contradiction |].
    reflexivity. }
  rewrite Hrest. now destruct (f (k, v)).
Qed.

Lemma keys_functional {V} (es : list (string * V)) (k : string) (v v' : V) :
  NoDup (map fst es) -> In (k, v) es -> In (k, v') es -> v = v'.
Proof.
  induction es as [|[k0 v0] es IH]; intros Hnd H1 H2; [destruct H1 |].
  simpl map in Hnd. apply NoDup_cons_iff in Hnd as [Hk Hnd].
  destruct H1 as [E1 | H1], H2 as [E2 | H2].
  - congruence.
  - injection E1 as -> ->.
    exfalso. apply Hk. change k with (fst (k, v')). now apply in_map.
  - injection E2 as -> ->.
    exfalso. apply Hk. change k with (fst (k, v)). now apply in_map.
  - now apply IH.
Qed.

(** A label is among the matched ones exactly when its pattern matches. *)
Lemma matchedLabels_In (query d label : string) (pattern : RegExp.t) :
  In (label, pattern) (patternEntries d) ->
  (In label (matchedLabels query d)
   <-> RegExp.test pattern (JsString.toLowerCase query) = true).
Proof.
  intros Hin. unfold matchedLabels. rewrite in_map_iff. split.
  - intros ([l p] & <- & He). apply filter_In in He as [He Hf].
    simpl in *.
    now rewrite (keys_functional _ _ _ _ (labelsOf_NoDup d) Hin He).
  - intros Ht. exists (label, pattern). split; [reflexivity |].
    apply filter_In. now split.
Qed.

Lemma countQuotes_withoutQuotes (s : string) :
  countQuotes (withoutQuotes s) = 0.
Proof.
  induction s as [|c s IH]; simpl; [reflexivity |].
  destruct (isQuote c) eqn:E; [exact IH |]. simpl. now rewrite E.
Qed.

Lemma inOrder_quote_count (ms : list string) :
  forall s,
    (forall m, In m ms -> 2 <= countQuotes m) ->
    inOrder ms s ->
    2 * List.length ms <= countQuotes s.
Proof.
  induction ms as [|m ms IH]; intros s Hm Hord; simpl; [lia |].
  destruct Hord as (before & after & -> & Hrest).
  rewrite !countQuotes_app.
  assert (H1 : 2 <= countQuotes m) by (apply Hm; now left).
  assert (H2 : 2 * List.length ms <= countQuotes after)
    by (apply IH; [intros m' Hm'; apply Hm; now right | exact Hrest]).
  lia.
Qed.

Lemma quotedTerms_count (query : string) :
  2 * List.length (quotedTerms query) <= countQuotes query.
Proof.
  apply inOrder_quote_count; [| apply quotedTerms_inOrder].
  intros m Hm. apply quotedTerms_shape in Hm as (q & inner & Hq & _ & _ & ->).
  rewrite !countQuotes_app. simpl.
  assert (isQuote q = true) as -> by (destruct Hq; subst; reflexivity).
  lia.
Qed.

(** ** More on extractTopics *)

(** X6: for a domain without topic patterns (general, an unknown name, a
    member of Object.prototype) the topics are the quoted terms only; and
    there are none when the query has at most one quote character. *)
Theorem extractTopics_unknown_domain (query d : string) :
  ~ In d enumeration ->
  extractTopics query d = quotedTopics query
  /\ (countQuotes query <= 1 -> extractTopics query d = []).
Proof.
  intros Hd.
  assert (E : matchedLabels query d = []).
  { unfold matchedLabels.
    destruct (patternEntries_cases d) as [H | ->]; [contradiction |].
    reflexivity. }
  rewrite extractTopics_split, E. split; [reflexivity |].
  intros Hq. unfold quotedTopics, quotedTerms, matchAll.
  now rewrite scan_few_quotes.
Qed.

Lemma extractTopics_unknown_domain_witness :
  extractTopics "use state and 'hooks' in jsx" "toString"
  = quotedTopics "use state and 'hooks' in jsx".
Proof.
  apply (extractTopics_unknown_domain "use state and 'hooks' in jsx"
           "toString").
  simpl. intuition discriminate.
Defined.

(** X7: a string is among the topics exactly when it is the label of a
    pattern of the domain that matches the lowercased query, or the
    quote-free form, longer than two characters, of a quoted match of the
    query; and no topic contains a quote character. *)
Theorem extractTopics_no_quote (query d topic : string) :
  (In topic (extractTopics query d)
   <-> (exists pattern,
          In (topic, pattern) (patternEntries d)
          /\ RegExp.test pattern (JsString.toLowerCase query) = true)
       \/ (exists m,
             In m (quotedTerms query)
             /\ topic = withoutQuotes m
             /\ 2 < String.length topic))
  /\ (In topic (extractTopics query d) -> countQuotes topic = 0).
Proof.
  assert (H : In topic (extractTopics query d)
              <-> (exists pattern,
                     In (topic, pattern) (patternEntries d)
                     /\ RegExp.test pattern (JsString.toLowerCase query)
                        = true)
                  \/ (exists m,
                        In m (quotedTerms query)
                        /\ topic = withoutQuotes m
                        /\ 2 < String.length topic)).
  { rewrite extractTopics_split, in_app_iff.
    unfold matchedLabels, quotedTopics.
    rewrite in_map_iff, filter_In, in_map_iff, Nat.ltb_lt. split.
    - intros [([l p] & <- & He) | [(m & <- & Hm) Hlen]].
      + apply filter_In in He as [He Hf]. left. now exists p.
      + right. exists m. now rewrite <- cleanTerm_withoutQuotes.
    - intros [(p & Hp & Ht) | (m & Hm & -> & Hlen)].
      + left. exists (topic, p). split; [reflexivity |].
        apply filter_In. now split.
      + right. rewrite <- cleanTerm_withoutQuotes in *.
        split; [now exists m | exact Hlen]. }
  split; [exact H |].
  intros Hin. apply H in Hin as [(p & Hp & _) | (m & _ & -> & _)].
  - apply (labelsOf_no_quotes d). unfold labelsOf.
    change topic with (fst (topic, p)). now apply in_map.
  - apply countQuotes_withoutQuotes.
Qed.

Lemma extractTopics_no_quote_witness :
  In "hooks" (extractTopics "use state and 'hooks' in jsx" "react-docs").
Proof.
  apply (proj1 (extractTopics_no_quote "use state and 'hooks' in jsx"
                  "react-docs" "hooks")).
  right. exists "'hooks'". repeat split.
  - vm_compute. tauto.
  - vm_compute. lia.
Defined.

(** X8: the count that the [extract-topics] tool returns is the length of
    its topic list; it is at most the number of patterns of the domain
    (13 at most) plus half the number of quote characters of the query,
    since each quoted term uses up two quote characters. *)
Theorem extractTopicsTool_count (query d : string) :
  topicCount (extractTopicsTool query d)
  = List.length (extractedTopics (extractTopicsTool query d))
  /\ extractedTopics (extractTopicsTool query d) = extractTopics query d
  /\ 2 * List.length (quotedTerms query) <= countQuotes query
  /\ topicCount (extractTopicsTool query d)
     <= List.length (labelsOf d) + countQuotes query / 2
  /\ topicCount (extractTopicsTool query d) <= 13 + countQuotes query / 2.
Proof.
  split; [reflexivity |]. split; [reflexivity |].
  split; [apply quotedTerms_count |].
  assert (H : topicCount (extractTopicsTool query d)
              <= List.length (labelsOf d) + countQuotes query / 2).
  { cbn [extractTopicsTool topicCount].
    rewrite extractTopics_split, length_app.
    assert (H1 : List.length (matchedLabels query d)
                 <= List.length (labelsOf d)).
    { unfold matchedLabels, labelsOf. rewrite !length_map.
      apply filter_length_le. }
    assert (H2 : List.length (quotedTopics query) <= countQuotes query / 2).
    { apply Nat.div_le_lower_bound; [lia |].
      pose proof (quotedTerms_count query) as Hq.
      assert (Hle : List.length (quotedTopics query)
                    <= List.length (quotedTerms query)).
      { unfold quotedTopics.
        etransitivity; [apply filter_length_le |]. now rewrite length_map. }
      lia. }
    lia. }
  split; [exact H |].
  pose proof (labelsOf_length d). lia.
Qed.

(** X9: the pattern labels among the topics are the labels of the domain
    with some left out: declaration order is kept and no label comes
    twice.  They are all the topics when the query has at most one quote
    character. *)
Theorem matchedLabels_in_declaration_order (query d : string) :
  exists keep : string -> bool,
    matchedLabels query d = filter keep (labelsOf d)
    /\ NoDup (matchedLabels query d)
    /\ (countQuotes query <= 1 ->
        extractTopics query d = filter keep (labelsOf d)).
Proof.
  pose proof (filter_keys
                (fun entry =>
                   RegExp.test (snd entry) (JsString.toLowerCase query))
                (patternEntries d) (labelsOf_NoDup d)) as E.
  fold (matchedLabels query d) in E. fold (labelsOf d) in E.
  eexists. split; [exact E |]. split.
  - rewrite E. apply NoDup_filter, labelsOf_NoDup.
  - intros Hq. rewrite extractTopics_split, E.
    unfold quotedTopics, quotedTerms, matchAll.
    rewrite scan_few_quotes by exact Hq. apply app_nil_r.
Qed.

Lemma matchedLabels_in_declaration_order_witness :
  exists keep : string -> bool,
    extractTopics "props, state and JSX" "react-docs"
    = filter keep (labelsOf "react-docs").
Proof.
  destruct (matchedLabels_in_declaration_order
              "props, state and JSX" "react-docs")
    as (keep & _ & _ & H).
  exists keep. apply H. vm_compute. lia.
Defined.

(** ** Literal patterns are substring tests *)

Lemma lowerChar_canonicalize (c : ascii) :
  JsString.lowerChar (canonicalize true c) = JsString.lowerChar c.
Proof. destruct c as [[] [] [] [] [] [] [] []]; reflexivity. Qed.

(** On characters in lower-case form, matching up to case is equality. *)
Lemma canonicalize_eqb (x l : ascii) :
  JsString.lowerChar x = x ->
  JsString.lowerChar l = l ->
  Ascii.eqb (canonicalize true x) (canonicalize true l) = Ascii.eqb x l.
Proof.
  intros Hx Hl. destruct (Ascii.eqb_spec x l) as [-> | Hne].
  - apply Ascii.eqb_refl.
  - apply Ascii.eqb_neq. intros E. apply Hne.
    rewrite <- Hx, <- Hl, <- (lowerChar_canonicalize x),
      <- (lowerChar_canonicalize l).
    now rewrite E.
Qed.

Lemma lowered_cons (c : ascii) (s : string) :
  lowered (String c s) -> JsString.lowerChar c = c /\ lowered s.
Proof. unfold lowered. simpl. intros [= H1 H2]. now split. Qed.

Lemma startsWith_nil (s : string) : JsString.startsWith s EmptyString = true.
Proof. now destruct s. Qed.

Lemma matchesAt_word (w : string) :
  w <> EmptyString ->
  lowered w ->
  forall prev s,
    lowered s ->
    matchesAt (ci (word w)) (prev, s) = JsString.startsWith s w.
Proof.
  induction w as [|c w IH]; intros Hne Hw prev s Hs; [contradiction |].
  apply lowered_cons in Hw as [Hc Hw].
  unfold matchesAt, exec, ci in *. cbn [ignoreCase pattern] in *.
  destruct w as [|c2 w].
  - cbn [word matchR]. unfold one. cbn [snd].
    destruct s as [|x s]; [reflexivity |].
    apply lowered_cons in Hs as [Hx Hs].
    cbn [JsString.startsWith]. unfold atomMatches.
    rewrite canonicalize_eqb, startsWith_nil, andb_true_r by assumption.
    now destruct (Ascii.eqb x c).
  - change (word (String c (String c2 w)))
      with (Seq (Atom (Lit c)) (word (String c2 w))).
    cbn [matchR]. unfold one at 1. cbn [snd].
    destruct s as [|x s]; [reflexivity |].
    apply lowered_cons in Hs as [Hx Hs].
    cbn [JsString.startsWith]. unfold atomMatches.
    rewrite canonicalize_eqb by assumption.
    destruct (Ascii.eqb x c); [| reflexivity].
    cbn [flat_map andb]. rewrite app_nil_r.
    apply IH; [discriminate | exact Hw | exact Hs].
Qed.

Lemma search_word (w : string) :
  w <> EmptyString ->
  lowered w ->
  forall s prev,
    lowered s ->
    search (ci (word w)) prev s = JsString.includes s w.
Proof.
  intros Hne Hw. induction s as [|x s IH]; intros prev Hs.
  - cbn [search JsString.includes].
    pose proof (matchesAt_word w Hne Hw prev EmptyString Hs) as E.
    unfold matchesAt in E. rewrite <- E.
    now destruct (exec (ci (word w)) (prev, EmptyString)).
  - cbn [search JsString.includes].
    pose proof (matchesAt_word w Hne Hw prev (String x s) Hs) as E.
    unfold matchesAt in E. rewrite <- E.
    apply lowered_cons in Hs as [_ Hs].
    destruct (exec (ci (word w)) (prev, String x s)); [reflexivity |].
    now apply IH.
Qed.

Lemma test_word (w query : string) :
  w <> EmptyString ->
  lowered w ->
  RegExp.test (ci (word w)) (JsString.toLowerCase query)
  = JsString.includes (JsString.toLowerCase query) w.
Proof.
  intros Hne Hw. unfold RegExp.test.
  apply search_word; [exact Hne | exact Hw |].
  unfold lowered. apply toLowerCase_idem.
Qed.

(** X10: a pattern that is one literal word, matched case-insensitively
    on the lowercased query, is a substring test: for react-docs the labels
    components, props, jsx, rendering and events are matched exactly when
    the lowercased query contains component, props, jsx, render and
    event. *)
Theorem literal_patterns_are_substring_tests (query : string) :
  (forall w,
      w <> EmptyString ->
      lowered w ->
      RegExp.test (ci (word w)) (JsString.toLowerCase query)
      = JsString.includes (JsString.toLowerCase query) w)
  /\ (In "components" (matchedLabels query "react-docs")
      <-> JsString.includes (JsString.toLowerCase query) "component" = true)
  /\ (In "props" (matchedLabels query "react-docs")
      <-> JsString.includes (JsString.toLowerCase query) "props" = true)
  /\ (In "jsx" (matchedLabels query "react-docs")
      <-> JsString.includes (JsString.toLowerCase query) "jsx" = true)
  /\ (In "rendering" (matchedLabels query "react-docs")
      <-> JsString.includes (JsString.toLowerCase query) "render" = true)
  /\ (In "events" (matchedLabels query "react-docs")
      <-> JsString.includes (JsString.toLowerCase query) "event" = true).
Proof.
  split; [intros w; apply test_word |].
  repeat split; intros H.
  all: first
    [ match goal with
      | |- JsString.includes _ ?w = true =>
          rewrite <- (test_word w query) by (discriminate || reflexivity);
          match type of H with
          | In ?label _ =>
              apply (matchedLabels_In query "react-docs" label
                       (ci (word w))); [vm_compute; tauto | exact H]
          end
      end
    | match type of H with
      | JsString.includes _ ?w = true =>
          rewrite <- (test_word w query) in H
            by (discriminate || reflexivity);
          match goal with
          | |- In ?label _ =>
              apply (matchedLabels_In query "react-docs" label
                       (ci (word w))); [vm_compute; tauto | exact H]
          end
      end ].
Qed.

Lemma literal_patterns_are_substring_tests_witness :
  In "props" (matchedLabels "Explain PROPS to me" "react-docs").
Proof.
  apply (proj2 (proj1 (proj2 (proj2 (literal_patterns_are_substring_tests
                                       "Explain PROPS to me"))))).
  vm_compute. reflexivity.
Defined.

(** ** URL rules and pattern labels *)

Lemma url_of_label (d label : string) (later : list string) :
  In label (labelsOf d) ->
  exists u, constructSpecificUrl d (label :: later) = Some u.
Proof.
  unfold labelsOf.
  destruct (patternEntries_cases d) as [[<- | [<- | [<- | []]]] | ->];
    intros H; vm_compute in H;
    repeat (destruct H as [<- | H]; [vm_compute; eexists; reflexivity |]);
    destruct H.
Qed.

Lemma label_of_url (d mainTopic u : string) (later : list string) :
  constructSpecificUrl d (mainTopic :: later) = Some u ->
  In mainTopic (labelsOf d) /\ JsString.startsWith u "https://" = true.
Proof.
  unfold constructSpecificUrl.
  destruct (String.eqb_spec d "react-docs") as [-> | _];
    [| destruct (String.eqb_spec d "node-docs") as [-> | _];
       [| destruct (String.eqb_spec d "python-docs") as [-> | _];
          [| discriminate]]].
  - unfold reactUrl, arrayIncludes, reactHooks. cbn [existsb].
    repeat match goal with
           | |- context [String.eqb ?k mainTopic] =>
               destruct (String.eqb_spec k mainTopic) as [<- | ?];
               cbn [orb]
           | |- context [String.eqb mainTopic ?k] =>
               destruct (String.eqb_spec mainTopic k) as [-> | ?];
               cbn [orb]
           end;
      intros H; vm_compute in H; try discriminate; injection H as <-;
      split; vm_compute; tauto.
  - unfold nodeUrl.
    repeat match goal with
           | |- context [String.eqb mainTopic ?k] =>
               destruct (String.eqb_spec mainTopic k) as [-> | ?]
           end;
      intros H; vm_compute in H; try discriminate; injection H as <-;
      split; vm_compute; tauto.
  - unfold pythonUrl, arrayIncludes. cbn [existsb].
    repeat match goal with
           | |- context [String.eqb ?k mainTopic] =>
               destruct (String.eqb_spec k mainTopic) as [<- | ?];
               cbn [orb]
           | |- context [String.eqb mainTopic ?k] =>
               destruct (String.eqb_spec mainTopic k) as [-> | ?];
               cbn [orb]
           end;
      intros H; vm_compute in H; try discriminate; injection H as <-;
      split; vm_compute; tauto.
Qed.

Lemma url_truthy (d u : string) (topics : list string) :
  constructSpecificUrl d topics = Some u -> JsString.truthy u = true.
Proof.
  destruct topics as [|t later]; [discriminate |].
  intros H. apply label_of_url in H as [_ H].
  destruct u; [discriminate | reflexivity].
Qed.

(** X11: the URL rules and the topic patterns name the same topics:
    [constructSpecificUrl] returns a URL exactly when the first topic is a
    pattern label of the domain; and every URL it returns starts with
    [https://], so that no free text of the query reaches a URL. *)
Theorem constructSpecificUrl_iff_label (d mainTopic : string)
    (later : list string) :
  ((exists u, constructSpecificUrl d (mainTopic :: later) = Some u)
   <-> In mainTopic (labelsOf d))
  /\ (forall u,
         constructSpecificUrl d (mainTopic :: later) = Some u ->
         JsString.startsWith u "https://" = true).
Proof.
  split; [split |].
  - intros [u H]. now apply label_of_url in H.
  - apply url_of_label.
  - intros u H. now apply label_of_url in H.
Qed.

Lemma constructSpecificUrl_iff_label_witness :
  exists u, constructSpecificUrl "node-docs" ["stream"; "Duplex"] = Some u.
Proof.
  apply (proj2 (proj1 (constructSpecificUrl_iff_label
                         "node-docs" "stream" ["Duplex"]))).
  vm_compute. tauto.
Defined.

(** X12: whenever a pattern of the domain matches the query, the pipeline
    has a specific URL: it is the URL of the first matched label, whatever
    quoted terms follow, and it starts with [https://]. *)
Theorem pipeline_url_of_matched_label (query d : string) :
  matchedLabels query d <> [] ->
  exists u,
    constructSpecificUrl d (extractTopics query d) = Some u
    /\ constructSpecificUrl d (matchedLabels query d) = Some u
    /\ JsString.startsWith u "https://" = true.
Proof.
  intros Hne. rewrite extractTopics_split.
  destruct (matchedLabels query d) as [|label labels] eqn:E;
    [contradiction |].
  assert (Hl : In label (labelsOf d)).
  { assert (Hin : In label (matchedLabels query d))
      by (rewrite E; now left).
    unfold matchedLabels, labelsOf in *.
    apply in_map_iff in Hin as (e & <- & He). apply filter_In in He as [He _].
    now apply in_map. }
  destruct (url_of_label d label labels Hl) as [u Hu].
  exists u. split; [exact Hu |]. split; [exact Hu |].
  now apply label_of_url in Hu.
Qed.

Lemma pipeline_url_of_matched_label_witness :
  exists u,
    constructSpecificUrl "python-docs"
      (extractTopics "what is a 'frozen' set" "python-docs") = Some u
    /\ constructSpecificUrl "python-docs"
         (matchedLabels "what is a 'frozen' set" "python-docs") = Some u
    /\ JsString.startsWith u "https://" = true.
Proof.
  apply (pipeline_url_of_matched_label "what is a 'frozen' set"
           "python-docs").
  vm_compute. discriminate.
Defined.

(** ** More on the fetch-documentation tool *)

Lemma resources_cases (fetch : string -> option string) (now d : string) :
  (d = "react-docs"
   /\ JsObject.get (resources fetch now) d
      = JsObject.Own (docsHandler fetch now "https://react.dev/reference/react"))
  \/ (d = "node-docs"
      /\ JsObject.get (resources fetch now) d
         = JsObject.Own (docsHandler fetch now "https://nodejs.org/en/docs"))
  \/ (d = "python-docs"
      /\ JsObject.get (resources fetch now) d
         = JsObject.Own (docsHandler fetch now "https://docs.python.org/3/"))
  \/ (d = "general"
      /\ JsObject.get (resources fetch now) d
         = JsObject.Own (generalHandler fetch now))
  \/ (~ In d configuredDomains
      /\ (JsObject.get (resources fetch now) d = JsObject.Inherited
          \/ JsObject.get (resources fetch now) d = JsObject.Missing)).
Proof.
  unfold JsObject.get, resources, configuredDomains.
  cbn [JsObject.own In].
  destruct (String.eqb_spec "react-docs" d) as [<- | ?]; [now left |].
  destruct (String.eqb_spec "node-docs" d) as [<- | ?];
    [right; now left |].
  destruct (String.eqb_spec "python-docs" d) as [<- | ?];
    [right; right; now left |].
  destruct (String.eqb_spec "general" d) as [<- | ?];
    [right; right; right; now left |].
  right; right; right; right. split; [tauto |].
  destruct (JsObject.inPrototype d); auto.
Qed.

Lemma extractTopics_general (query : string) :
  extractTopics query "general" = quotedTopics query.
Proof. now rewrite extractTopics_split. Qed.

(** X13: the response of the tool has an error field exactly when the
    resolved domain is not one of the four configured ones; its domain is
    the resolved domain; and when the caller passes no domain there is
    never an error field, whatever the network does. *)
Theorem fetchDocumentationTool_error_iff (fetch : string -> option string)
    (now query : string) (specifiedDomain : option string) :
  responseDomain (fetchDocumentationTool fetch now query specifiedDomain)
  = resolveDomain query specifiedDomain
  /\ (responseError (fetchDocumentationTool fetch now query specifiedDomain)
      = None
      <-> In (resolveDomain query specifiedDomain) configuredDomains)
  /\ responseError (fetchDocumentationTool fetch now query None) = None.
Proof.
  assert (H : forall sd,
             responseDomain (fetchDocumentationTool fetch now query sd)
             = resolveDomain query sd
             /\ (responseError (fetchDocumentationTool fetch now query sd)
                 = None
                 <-> In (resolveDomain query sd) configuredDomains)).
  { intros sd. unfold fetchDocumentationTool, tryFetch.
    destruct (resources_cases fetch now (resolveDomain query sd))
      as [[E ->] | [[E ->] | [[E ->] | [[E ->] | [Hn [-> | ->]]]]]];
      cbn [responseDomain responseError];
      (split; [reflexivity |]); split; intros H;
      try reflexivity; try discriminate; try contradiction;
      rewrite E; simpl; tauto. }
  split; [apply H |]. split; [apply H |].
  apply (H None). cbn [resolveDomain]. apply determineDomain_configured.
Qed.

Lemma fetchDocumentationTool_error_iff_witness :
  responseError
    (fetchDocumentationTool (fun _ => None) "2024-01-01T00:00:00.000Z"
       "How do I use lists?" (Some "python-docs")) = None.
Proof.
  apply (proj2 (proj1 (proj2 (fetchDocumentationTool_error_iff
                                (fun _ => None) "2024-01-01T00:00:00.000Z"
                                "How do I use lists?"
                                (Some "python-docs"))))).
  simpl. tauto.
Defined.

(** X14: when the resolved domain is general the tool fetches nothing: the
    response is the request for a specific URL, with source none and no
    specific URL, and its topics are the quoted terms of the query (or the
    one entry general), whatever the network would return. *)
Theorem fetchDocumentationTool_general (fetch : string -> option string)
    (now query : string) (specifiedDomain : option string) :
  resolveDomain query specifiedDomain = "general" ->
  fetchDocumentationTool fetch now query specifiedDomain
  = Fetched "general" (topicsOrGeneral (quotedTopics query)) None
      "Please provide a specific URL for general documentation queries."
      "none".
Proof.
  intros E. unfold fetchDocumentationTool, tryFetch. rewrite E.
  rewrite extractTopics_general.
  assert (Hu : constructSpecificUrl "general" (quotedTopics query) = None)
    by now destruct (quotedTopics query).
  rewrite Hu. reflexivity.
Qed.

Lemma fetchDocumentationTool_general_witness :
  fetchDocumentationTool (fun _ => Some "page") "2024-01-01T00:00:00.000Z"
    "Best practices for 'file handling'" None
  = Fetched "general" ["file handling"] None
      "Please provide a specific URL for general documentation queries."
      "none".
Proof.
  apply (fetchDocumentationTool_general (fun _ => Some "page")
           "2024-01-01T00:00:00.000Z" "Best practices for 'file handling'"
           None).
  vm_compute. reflexivity.
Defined.

(** X15: for react-docs, node-docs and python-docs the response is the
    page response; its source is the specific URL when one is constructed
    and the base URL of the domain otherwise; its content is what
    [fetchDocumentation] gives for that source, which is the text
    [Unable to fetch documentation content.] when the fetch fails; the
    source starts with [https://]. *)
Theorem fetchDocumentationTool_docs (fetch : string -> option string)
    (now query : string) (specifiedDomain : option string)
    (d baseUrl : string) :
  resolveDomain query specifiedDomain = d ->
  JsObject.own baseUrls d = Some baseUrl ->
  let topics := extractTopics query d in
  let specificUrl := constructSpecificUrl d topics in
  let src := match specificUrl with Some u => u | None => baseUrl end in
  fetchDocumentationTool fetch now query specifiedDomain
  = Fetched d (topicsOrGeneral topics) specificUrl
      (fetchDocumentation fetch src) src
  /\ JsString.startsWith src "https://" = true
  /\ (fetch src = None ->
      fetchDocumentation fetch src = "Unable to fetch documentation content.").
Proof.
  intros E Hb topics specificUrl src.
  assert (Hsrc : orElse specificUrl baseUrl = src).
  { unfold src, orElse. destruct specificUrl as [u|] eqn:Hu; [| reflexivity].
    now rewrite (url_truthy d u topics Hu). }
  assert (Hhttps : JsString.startsWith src "https://" = true).
  { unfold src. destruct specificUrl as [u|] eqn:Hu.
    - unfold specificUrl in Hu. destruct topics as [|t later];
        [discriminate |].
      now apply label_of_url in Hu.
    - apply own_In in Hb. unfold baseUrls in Hb. cbn [In] in Hb.
      destruct Hb as [Hb | [Hb | [Hb | []]]]; injection Hb as <- <-;
        reflexivity. }
  split; [| split; [exact Hhttps |]].
  - unfold fetchDocumentationTool, tryFetch. rewrite E.
    fold topics. fold specificUrl.
    destruct (resources_cases fetch now d)
      as [[Ed ->] | [[Ed ->] | [[Ed ->] | [[Ed ->] | [Hn _]]]]];
      apply own_In in Hb; unfold baseUrls in Hb; cbn [In] in Hb;
      destruct Hb as [Hb | [Hb | [Hb | []]]];
      try (exfalso; apply Hn; injection Hb as <- _; simpl; tauto);
      try congruence;
      injection Hb as _ <-;
      unfold docsHandler; cbn [content source]; rewrite Hsrc; reflexivity.
  - intros Hf. unfold fetchDocumentation. now rewrite Hf.
Qed.

Lemma fetchDocumentationTool_docs_witness :
  fetchDocumentationTool (fun _ => None) "2024-01-01T00:00:00.000Z"
    "How do I use useState hook in React?" None
  = Fetched "react-docs" ["useState"; "state"]
      (Some "https://react.dev/reference/react/useState")
      "Unable to fetch documentation content."
      "https://react.dev/reference/react/useState".
Proof.
  apply (fetchDocumentationTool_docs (fun _ => None)
           "2024-01-01T00:00:00.000Z"
           "How do I use useState hook in React?" None
           "react-docs" "https://react.dev/reference/react");
    vm_compute; reflexivity.
Defined.

(** ** The first handler and the test script *)

(** X16: the first [fetch-documentation] handler, which always asks the
    resource for its base URL, and the later one agree: they report an
    error on the same inputs, with the same domain, content and error
    text; and they return the same domain, content and source whenever no
    specific URL is constructed. *)
Theorem fetchDocumentationToolV1_agrees (fetch : string -> option string)
    (now query : string) (specifiedDomain : option string) :
  (forall d content1 source1,
      fetchDocumentationToolV1 fetch now query specifiedDomain
      = FetchedV1 d content1 source1 ->
      exists topics specificUrl content2 source2,
        fetchDocumentationTool fetch now query specifiedDomain
        = Fetched d topics specificUrl content2 source2
        /\ (specificUrl = None ->
            content1 = content2 /\ source1 = source2))
  /\ (forall d text error,
         fetchDocumentationToolV1 fetch now query specifiedDomain
         = FailedV1 d text error ->
         fetchDocumentationTool fetch now query specifiedDomain
         = Failed d (extractTopics query d) text error).
Proof.
  unfold fetchDocumentationToolV1, tryFetchV1, fetchDocumentationTool,
    tryFetch.
  destruct (JsObject.get (resources fetch now)
              (resolveDomain query specifiedDomain)) as [handler | |];
    split; try discriminate.
  - intros d content1 source1 [= <- <- <-].
    eexists _, _, _, _. split; [reflexivity |].
    intros ->. now split.
  - now intros d text error [= <- <- <-].
  - now intros d text error [= <- <- <-].
Qed.

Lemma fetchDocumentationToolV1_agrees_witness :
  fetchDocumentationTool (fun _ => Some "page") "2024-01-01T00:00:00.000Z"
    "How to use Rust?" (Some "rust-docs")
  = Failed "rust-docs" []
      "Error fetching documentation for this domain."
      "Error: Unknown domain: rust-docs".
Proof.
  apply (proj2 (fetchDocumentationToolV1_agrees (fun _ => Some "page")
                  "2024-01-01T00:00:00.000Z" "How to use Rust?"
                  (Some "rust-docs"))
           "rust-docs" "Error fetching documentation for this domain."
           "Error: Unknown domain: rust-docs").
  vm_compute. reflexivity.
Defined.

Lemma startsWith_append (p s s' : string) :
  JsString.startsWith (p ++ s) (p ++ s') = JsString.startsWith s s'.
Proof.
  induction p as [|c p IH]; [reflexivity |].
  simpl. now rewrite Ascii.eqb_refl, IH.
Qed.

(** X17: the URL line that [testQuery] logs shows the constructed URL
    whenever there is one, and the fallback text exactly when
    [constructSpecificUrl] returns null; the topics line shows
    [None detected] when no topic is extracted and the topics joined by
    a comma and a space otherwise. *)
Theorem testQuery_lines (query : string) :
  let domain := determineDomain query in
  let topics := extractTopics query domain in
  let specificUrl := constructSpecificUrl domain topics in
  testQuery query
  = [ (str1 newline ++ "-------------------------------------")%string;
      ("Query: " ++ dquoted query)%string;
      ("Domain: " ++ domain)%string;
      ("Topics: "
         ++ match topics with
            | [] => "None detected"
            | _ :: _ => join ", " topics
            end)%string;
      ("Specific URL: "
         ++ match specificUrl with
            | Some u => u
            | None => "No specific URL constructed, would use base URL"
            end)%string;
      "-------------------------------------" ]
  /\ (nth 4 (testQuery query) EmptyString
      = "Specific URL: No specific URL constructed, would use base URL"
      <-> specificUrl = None).
Proof.
  intros domain topics specificUrl.
  assert (Hurl : orElse specificUrl
                   "No specific URL constructed, would use base URL"
                 = match specificUrl with
                   | Some u => u
                   | None => "No specific URL constructed, would use base URL"
                   end).
  { unfold orElse. destruct specificUrl as [u|] eqn:Hu; [| reflexivity].
    now rewrite (url_truthy domain u topics Hu). }
  assert (E : testQuery query
              = [ (str1 newline ++ "-------------------------------------")%string;
                  ("Query: " ++ dquoted query)%string;
                  ("Domain: " ++ domain)%string;
                  ("Topics: "
                     ++ match topics with
                        | [] => "None detected"
                        | _ :: _ => join ", " topics
                        end)%string;
                  ("Specific URL: "
                     ++ match specificUrl with
                        | Some u => u
                        | None =>
                            "No specific URL constructed, would use base URL"
                        end)%string;
                  "-------------------------------------" ]).
  { unfold testQuery. fold domain. fold topics. fold specificUrl.
    rewrite Hurl. now destruct topics. }
  split; [exact E |].
  rewrite E. cbn [nth]. split.
  - destruct specificUrl as [u|] eqn:Hu; [| reflexivity].
    intros H. exfalso.
    unfold specificUrl in Hu. destruct topics as [|t later];
      [discriminate |].
    apply label_of_url in Hu as [_ Hu].
    apply (f_equal (fun s => JsString.startsWith s
                               "Specific URL: https://")) in H.
    change "Specific URL: https://"
      with ("Specific URL: " ++ "https://")%string in H at 1.
    rewrite startsWith_append, Hu in H. vm_compute in H. discriminate.
  - now intros ->.
Qed.

Lemma testQuery_lines_witness :
  nth 4 (testQuery "Best practices for file handling") EmptyString
  = "Specific URL: No specific URL constructed, would use base URL".
Proof.
  apply (proj2 (proj2 (testQuery_lines "Best practices for file handling"))).
  vm_compute. reflexivity.
Defined.

(** ** The resource handlers *)

(** X18: in each of the four resources a non-empty URL argument is the
    URL that is fetched and reported as source; an empty string counts as
    no URL; without a URL the three documentation resources fetch their
    base URL, and the general resource fetches nothing and answers with a
    request for a URL and the source none. *)
Theorem resource_handlers (fetch : string -> option string) (now : string) :
  (forall name handler u,
      In (name, handler) (resources fetch now) ->
      u <> EmptyString ->
      handler (Some u) = mkResult (fetchDocumentation fetch u) u now)
  /\ (forall name handler,
         In (name, handler) (resources fetch now) ->
         handler (Some EmptyString) = handler None)
  /\ (forall name handler baseUrl,
         In (name, handler) (resources fetch now) ->
         JsObject.own baseUrls name = Some baseUrl ->
         handler None
         = mkResult (fetchDocumentation fetch baseUrl) baseUrl now)
  /\ (forall handler,
         In ("general", handler) (resources fetch now) ->
         handler None
         = mkResult
             "Please provide a specific URL for general documentation queries."
             "none" now).
Proof.
  unfold resources. cbn [In]. repeat split.
  - intros name handler u H Hu.
    destruct u as [|c u]; [contradiction |].
    destruct H as [H | [H | [H | [H | []]]]]; injection H as <- <-;
      reflexivity.
  - intros name handler H.
    destruct H as [H | [H | [H | [H | []]]]]; injection H as <- <-;
      reflexivity.
  - intros name handler baseUrl H Hb.
    destruct H as [H | [H | [H | [H | []]]]]; injection H as <- <-;
      vm_compute in Hb; try discriminate; injection Hb as <-; reflexivity.
  - intros handler H.
    destruct H as [H | [H | [H | [H | []]]]]; try discriminate.
    injection H as <-. reflexivity.
Qed.

Lemma resource_handlers_witness :
  generalHandler (fun _ => Some "page") "2024-01-01T00:00:00.000Z"
    (Some "https://example.org/")
  = mkResult "page" "https://example.org/" "2024-01-01T00:00:00.000Z".
Proof.
  apply (proj1 (resource_handlers (fun _ => Some "page")
                  "2024-01-01T00:00:00.000Z") "general").
  - simpl. tauto.
  - discriminate.
Defined.

(** ** Double-quoted terms *)






(** ** Whole-word patterns *)

Lemma lowered_app_r (a b : string) : lowered (a ++ b) -> lowered b.
Proof.
  unfold lowered. induction a as [|c a IH]; simpl; [trivial |].
  intros [= _ H]. now apply IH.
Qed.

Lemma matchR_word (w : string) :
  w <> EmptyString ->
  lowered w ->
  forall prev s,
    lowered s ->
    matchR true (word w) (prev, s)
    = if JsString.startsWith s w
      then [(lastOf prev w, drop (String.length w) s)]
      else [].
Proof.
  induction w as [|c w IH]; intros Hne Hw prev s Hs; [contradiction |].
  apply lowered_cons in Hw as [Hc Hw].
  destruct w as [|c2 w].
  - cbn [word matchR]. unfold one. cbn [snd].
    destruct s as [|x s]; [reflexivity |].
    apply lowered_cons in Hs as [Hx Hs].
    cbn [JsString.startsWith]. unfold atomMatches.
    rewrite canonicalize_eqb, startsWith_nil, andb_true_r by assumption.
    destruct (Ascii.eqb_spec x c) as [-> | _]; reflexivity.
  - change (word (String c (String c2 w)))
      with (Seq (Atom (Lit c)) (word (String c2 w))).
    cbn [matchR]. unfold one at 1. cbn [snd].
    destruct s as [|x s]; [reflexivity |].
    apply lowered_cons in Hs as [Hx Hs].
    cbn [JsString.startsWith]. unfold atomMatches.
    rewrite canonicalize_eqb by assumption.
    destruct (Ascii.eqb_spec x c) as [-> | _]; [| reflexivity].
    cbn [flat_map andb]. rewrite app_nil_r.
    rewrite IH by (discriminate || assumption).
    reflexivity.
Qed.

Lemma lastOf_word (w : string) :
  w <> EmptyString ->
  allChars isWordChar w = true ->
  forall prev, exists c, lastOf prev w = Some c /\ isWordChar c = true.
Proof.
  induction w as [|c w IH]; intros Hne Hw prev; [contradiction |].
  simpl in Hw. apply andb_true_iff in Hw as [Hc Hw].
  destruct w as [|c2 w].
  - now exists c.
  - apply (IH ltac:(discriminate) Hw (Some c)).
Qed.

Lemma matchesAt_whole (w : string) :
  w <> EmptyString ->
  lowered w ->
  allChars isWordChar w = true ->
  forall prev s,
    lowered s ->
    matchesAt (ci (whole w)) (prev, s)
    = negb (wordBefore (prev, s))
      && JsString.startsWith s w
      && negb (startsWithWordChar (drop (String.length w) s)).
Proof.
  intros Hne Hw Hwc prev s Hs.
  unfold matchesAt, exec, ci, whole. cbn [ignoreCase pattern matchR].
  destruct (JsString.startsWith s w) eqn:Hsw.
  - assert (Hafter : wordAfter (prev, s) = true).
    { apply startsWith_spec in Hsw as [b ->].
      destruct w as [|c w]; [contradiction |].
      simpl in Hwc. apply andb_true_iff in Hwc as [Hc _]. exact Hc. }
    assert (Hb : atBoundary (prev, s) = negb (wordBefore (prev, s)))
      by (unfold atBoundary; now rewrite Hafter, xorb_true_r).
    rewrite Hb.
    destruct (wordBefore (prev, s)); [reflexivity |].
    cbn [negb flat_map andb]. rewrite matchR_word, Hsw by assumption.
    cbn [flat_map]. rewrite !app_nil_r.
    destruct (lastOf_word w Hne Hwc prev) as (c & Hl & Hc).
    assert (Hb' : atBoundary (lastOf prev w, drop (String.length w) s)
                  = negb (startsWithWordChar (drop (String.length w) s))).
    { unfold atBoundary, wordBefore, wordAfter. cbn [fst snd].
      now rewrite Hl, Hc. }
    rewrite Hb'.
    now destruct (startsWithWordChar (drop (String.length w) s)).
  - rewrite andb_false_r. cbn [andb].
    destruct (atBoundary (prev, s)); [| reflexivity].
    cbn [flat_map]. rewrite matchR_word, Hsw by assumption. reflexivity.
Qed.

(** [test] finds a match exactly when one starts at some position. *)
Lemma search_spec (re : RegExp.t) :
  forall s prev,
    search re prev s = true
    <-> exists a b, s = (a ++ b)%string
                    /\ matchesAt re (lastOf prev a, b) = true.
Proof.
  unfold matchesAt.
  induction s as [|c s IH]; intros prev; cbn [search].
  - destruct (exec re (prev, EmptyString)) eqn:E.
    + split; [intros _ | reflexivity].
      exists EmptyString, EmptyString. cbn [lastOf]. now rewrite E.
    + split; [discriminate |].
      intros (a & b & Hab & H). destruct a; [| discriminate].
      simpl in Hab. subst b. cbn [lastOf] in H. now rewrite E in H.
  - destruct (exec re (prev, String c s)) eqn:E.
    + split; [intros _ | reflexivity].
      exists EmptyString, (String c s). cbn [lastOf]. now rewrite E.
    + rewrite IH. split.
      * intros (a & b & -> & H). now exists (String c a), b.
      * intros (a & b & Hab & H). destruct a as [|x a].
        -- simpl in Hab. subst b. cbn [lastOf] in H. now rewrite E in H.
        -- injection Hab as -> ->. now exists a, b.
Qed.

Lemma search_alt (r1 r2 : regex) (ic : bool) :
  forall s prev,
    search (RegExp.mk (Alt r1 r2) ic) prev s
    = search (RegExp.mk r1 ic) prev s || search (RegExp.mk r2 ic) prev s.
Proof.
  induction s as [|c s IH]; intros prev; cbn [search];
    unfold exec; cbn [ignoreCase pattern matchR];
    destruct (matchR ic r1 _) as [|q1 l1]; cbn [app];
    destruct (matchR ic r2 _) as [|q2 l2]; try reflexivity;
    try apply IH.
  all: try (symmetry; apply orb_true_r).
Qed.

Lemma test_whole (w query : string) :
  w <> EmptyString ->
  lowered w ->
  allChars isWordChar w = true ->
  RegExp.test (ci (whole w)) (JsString.toLowerCase query) = true
  <-> occursAsWord w (JsString.toLowerCase query).
Proof.
  intros Hne Hw Hwc. unfold RegExp.test, occursAsWord.
  rewrite search_spec. split.
  - intros (a & b & E & H).
    assert (Hb : lowered b).
    { apply (lowered_app_r a). rewrite <- E. unfold lowered.
      apply toLowerCase_idem. }
    rewrite (matchesAt_whole w Hne Hw Hwc _ _ Hb) in H.
    apply andb_true_iff in H as [H H3]. apply andb_true_iff in H as [H1 H2].
    apply startsWith_spec in H2 as [after ->].
    rewrite drop_app in H3.
    exists a, after. split; [exact E |].
    split; [| now apply negb_true_iff in H3].
    apply negb_true_iff in H1. exact H1.
  - intros (before & after & E & H1 & H2).
    exists before, (w ++ after)%string. split; [exact E |].
    assert (Hb : lowered (w ++ after)).
    { apply (lowered_app_r before). rewrite <- E. unfold lowered.
      apply toLowerCase_idem. }
    rewrite (matchesAt_whole w Hne Hw Hwc _ _ Hb), drop_app, H2.
    assert (Hs : JsString.startsWith (w ++ after) w = true)
      by (apply startsWith_spec; now exists after).
    rewrite Hs. cbn [negb]. rewrite !andb_true_r.
    apply negb_true_iff. exact H1.
Qed.

(** X20: a pattern [\bw\b] for a lower-case word [w] matches the
    lowercased query exactly when [w] occurs in it with no word character
    right before or right after, the word characters being those of
    [A-Za-z0-9_] only; and an alternation matches when one of its branches
    does.  So for node-docs the label path is matched exactly when path
    occurs in that way, and for python-docs the label list exactly when
    list or lists does.  A letter outside ASCII does not count: path
    right after an e with acute accent is matched. *)
Theorem whole_word_patterns (query : string) :
  (forall w,
      w <> EmptyString ->
      lowered w ->
      allChars isWordChar w = true ->
      (RegExp.test (ci (whole w)) (JsString.toLowerCase query) = true
       <-> occursAsWord w (JsString.toLowerCase query)))
  /\ (forall r1 r2 s,
         RegExp.test (ci (Alt r1 r2)) s
         = RegExp.test (ci r1) s || RegExp.test (ci r2) s)
  /\ (In "path" (matchedLabels query "node-docs")
      <-> occursAsWord "path" (JsString.toLowerCase query))
  /\ (In "list" (matchedLabels query "python-docs")
      <-> occursAsWord "list" (JsString.toLowerCase query)
          \/ occursAsWord "lists" (JsString.toLowerCase query))
  /\ matchedLabels (String "233"%char "path") "node-docs" = ["path"]
  /\ matchedLabels "pathway" "node-docs" = [].
Proof.
  split; [intros w; apply test_whole |].
  split; [intros r1 r2 s; apply search_alt |].
  split; [| split; [| split; vm_compute; reflexivity]].
  - rewrite (matchedLabels_In query "node-docs" "path" (ci (whole "path")))
      by (vm_compute; tauto).
    now apply test_whole.
  - rewrite (matchedLabels_In query "python-docs" "list"
               (ci (anyOf (whole "list") [whole "lists"])))
      by (vm_compute; tauto).
    cbn [anyOf]. unfold RegExp.test, ci. rewrite search_alt, orb_true_iff.
    fold (ci (whole "list")). fold (ci (whole "lists")).
    fold (RegExp.test (ci (whole "list")) (JsString.toLowerCase query)).
    fold (RegExp.test (ci (whole "lists")) (JsString.toLowerCase query)).
    rewrite !test_whole by (discriminate || reflexivity).
    reflexivity.
Qed.

Lemma whole_word_patterns_witness :
  In "path" (matchedLabels "Join a PATH, please" "node-docs").
Proof.
  apply (proj2 (proj1 (proj2 (proj2 (whole_word_patterns
                                       "Join a PATH, please"))))).
  exists "join a ", ", please". repeat split.
Defined.
